(** * MLTrader: a sentiment-gated trading strategy (src/class.py)

    A shallow embedding of the [MLTrader] strategy class and the properties
    of its decision loop.

    Modelling choices.
    - Python numbers (cash, prices, probabilities, quantities) are exact
      rationals [Q]; comparisons are the boolean comparisons of [Q].
      Division by zero raises, as in Python.  Binary floating point is not
      modelled: a rational quotient has no rounding error and no overflow,
      so near a rounding tie [round0] can differ from Python's [round] on
      floats by one share.
    - A [datetime] holds the days 0001-01-01 to 9999-12-31; subtracting
      days below the first one raises [OverflowError], as in Python.
    - A method is a computation in the monad [M]: it reads the responses of
      the collaborators for the current iteration from an [Env], threads the
      strategy object and a trace of observable events, and either returns a
      value or raises.  A raise keeps the state reached so far, as in Python.
      [exn] stands for the exceptions [except Exception] catches; in the
      methods of the class a collaborator returns or raises one of these.
      The exceptions no handler of the file catches ([KeyboardInterrupt],
      [SystemExit]) are modelled for the script's main block, where they
      pass through its handler.
    - Every collaborator is called at most once per iteration, so one
      response per collaborator (a function of the arguments where there are
      arguments) describes an iteration completely.
    - The collaborators (broker, data source, news API, sentiment model,
      logging) do not write the attributes of the strategy object.
    - The values the collaborators return are typed: lookups return
      numbers, the news API returns items that carry a headline, the
      scoring model returns a probability and a label.  A lookup that
      hands back something else makes the method raise on first use, which
      is the case of a raising lookup here. *)

From Stdlib Require Import ZArith QArith Qround String Ascii List Bool Lia Lqa.
Import ListNotations.

Open Scope string_scope.
Open Scope list_scope.
Open Scope Q_scope.

(** ** Numbers *)

(** [x > y] on Python numbers. *)
Definition Qgtb (x y : Q) : bool := negb (Qle_bool x y).

(** Python's [round(x, 0)]: the nearest whole number, a tie going to the
    even neighbour. *)
Definition round0 (x : Q) : Z :=
  let f := Qfloor x in
  match Qcompare (x - inject_Z f) (1 # 2) with
  | Lt => f
  | Gt => (f + 1)%Z
  | Eq => if Z.even f then f else (f + 1)%Z
  end.

(** ** Exceptions and results *)

Inductive exn : Type :=
| ZeroDivisionError
| OverflowError
| ValueError (msg : string)
| CollaboratorError (who : string).

Inductive result (A : Type) : Type :=
| Val (a : A)
| Exn (e : exn).
Arguments Val {A} a.
Arguments Exn {A} e.

(** Python's [x / y]. *)
Definition py_div (x y : Q) : result Q :=
  if Qeq_bool y 0 then Exn ZeroDivisionError else Val (x / y).

(** ** Dates *)

(** A [datetime]: the proleptic Gregorian ordinal of its day (day 1 is
    0001-01-01, the first day a datetime can hold; day 3652059 is
    9999-12-31, the last) and the time of day in microseconds. *)
Record datetime : Type := mkDatetime { ordinal : Z; time_of_day : Z }.

Definition min_ordinal : Z := 1.
Definition max_ordinal : Z := 3652059.

(** The datetimes Python can hold. *)
Definition valid_datetime (d : datetime) : Prop :=
  (min_ordinal <= ordinal d <= max_ordinal)%Z.

(** The day [n] days before [d], at the same time of day. *)
Definition minus_days (d : datetime) (n : Z) : datetime :=
  {| ordinal := (ordinal d - n)%Z; time_of_day := time_of_day d |}.

(** [d - Timedelta(days=n)]: the subtraction raises when the day falls
    before the first day a datetime can hold.  (It cannot pass the last
    day: [d] is a datetime and [n] is not negative here.) *)
Definition sub_days (d : datetime) (n : Z) : result datetime :=
  if (ordinal d - n <? min_ordinal)%Z then Exn OverflowError
  else Val (minus_days d n).

Definition days_before_month (month : Z) : Z :=
  nth (Z.to_nat month)
      [0; 0; 31; 59; 90; 120; 151; 181; 212; 243; 273; 304; 334]%Z 0%Z.

Definition days_in_month (month : Z) : Z :=
  nth (Z.to_nat month)
      [0; 31; 28; 31; 30; 31; 30; 31; 31; 30; 31; 30; 31]%Z 0%Z.

Definition b2z (b : bool) : Z := if b then 1%Z else 0%Z.

(** ordinal -> (year, month, day), the calendar computation of the
    datetime library. *)
Definition ord2ymd (n0 : Z) : Z * Z * Z :=
  let n := (n0 - 1)%Z in
  let n400 := (n / 146097)%Z in
  let n := (n mod 146097)%Z in
  let n100 := (n / 36524)%Z in
  let n := (n mod 36524)%Z in
  let n4 := (n / 1461)%Z in
  let n := (n mod 1461)%Z in
  let n1 := (n / 365)%Z in
  let n := (n mod 365)%Z in
  let year := (n400 * 400 + 1 + n100 * 100 + n4 * 4 + n1)%Z in
  if ((n1 =? 4) || (n100 =? 4))%Z then ((year - 1)%Z, 12%Z, 31%Z)
  else
    let leapyear := ((n1 =? 3) && (negb (n4 =? 24) || (n100 =? 3)))%Z in
    let month := Z.shiftr (n + 50) 5 in
    let preceding :=
      (days_before_month month + b2z ((2 <? month)%Z && leapyear))%Z in
    if (n <? preceding)%Z then
      let month' := (month - 1)%Z in
      let preceding' :=
        (preceding - (days_in_month month'
                      + b2z ((month' =? 2)%Z && leapyear)))%Z in
      (year, month', (n - preceding' + 1)%Z)
    else (year, month, (n - preceding + 1)%Z).

Definition digit (n : Z) : string :=
  String (ascii_of_nat (48 + Z.to_nat (n mod 10))) EmptyString.

Definition digits2 (n : Z) : string := digit (n / 10) ++ digit n.
Definition digits4 (n : Z) : string := digits2 (n / 100) ++ digits2 n.

(** [%Y]: the year in decimal, as the C library prints it: four digits
    from the year 1000 on, and no leading zeros before. *)
Definition year_digits (year : Z) : string :=
  if (year <? 10)%Z then digit year
  else if (year <? 100)%Z then digits2 year
  else if (year <? 1000)%Z then digit (year / 100) ++ digits2 year
  else digits4 year.

(** [d.strftime('%Y-%m-%d')] *)
Definition strftime_ymd (d : datetime) : string :=
  let '(y, m, dd) := ord2ymd (ordinal d) in
  year_digits y ++ "-" ++ digits2 m ++ "-" ++ digits2 dd.

Definition is_leap (year : Z) : bool :=
  ((year mod 4 =? 0) && (negb (year mod 100 =? 0) || (year mod 400 =? 0)))%Z.

(** (year, month, day) -> ordinal, the calendar computation of the datetime
    library. *)
Definition ymd2ord (year month day : Z) : Z :=
  let y := (year - 1)%Z in
  (y * 365 + y / 4 - y / 100 + y / 400
   + days_before_month month + b2z ((2 <? month)%Z && is_leap year)
   + day)%Z.

(** The month and the day of the month of day [n] of a year, counted from
    0: the last step of [ord2ymd]. *)
Definition month_day (n : Z) (leapyear : bool) : Z * Z :=
  let month := Z.shiftr (n + 50) 5 in
  let preceding :=
    (days_before_month month + b2z ((2 <? month)%Z && leapyear))%Z in
  if (n <? preceding)%Z then
    let month' := (month - 1)%Z in
    let preceding' :=
      (preceding - (days_in_month month'
                    + b2z ((month' =? 2)%Z && leapyear)))%Z in
    (month', (n - preceding' + 1)%Z)
  else (month, (n - preceding + 1)%Z).

Definition month_day_ok (leapyear : bool) (n : Z) : bool :=
  let '(m, d) := month_day n leapyear in
  ((1 <=? m) && (m <=? 12) && (1 <=? d) && (d <=? 31)
   && (days_before_month m + b2z ((2 <? m) && leapyear) + d =? n + 1))%Z.

(** *** Reading a date back

    Modelled from the spec: the news source is not part of the repository;
    by its interface ([get_news(symbol, start_date, end_date)], section 6)
    it reads the two bounds of a request as calendar dates, written
    year-month-day in decimal. *)

Definition digit_value (c : ascii) : option Z :=
  let n := nat_of_ascii c in
  if ((48 <=? n) && (n <=? 57))%nat then Some (Z.of_nat (n - 48)) else None.

(** A run of decimal digits, and what follows it. *)
Fixpoint read_number (s : string) (acc : option Z) : option Z * string :=
  match s with
  | EmptyString => (acc, EmptyString)
  | String c s' =>
      match digit_value c with
      | Some v =>
          read_number s'
            (Some (10 * match acc with Some a => a | None => 0 end + v)%Z)
      | None => (acc, s)
      end
  end.

Definition read_date (s : string) : option (Z * Z * Z) :=
  match read_number s None with
  | (Some y, String "-" s1) =>
      match read_number s1 None with
      | (Some m, String "-" s2) =>
          match read_number s2 None with
          | (Some d, EmptyString) => Some (y, m, d)
          | _ => None
          end
      | _ => None
      end
  | _ => None
  end.

(** The day, as an ordinal, a date string names. *)
Definition day_of_string (s : string) : option Z :=
  match read_date s with
  | Some (y, m, d) => Some (ymd2ord y m d)
  | None => None
  end.

(** Modelled from the spec: the range a request pulls headlines for is
    half-open (section 4.2): it covers the days from the start date up to,
    and not including, the end date. *)
Definition request_covers (start_date end_date : string) (day : Z) : Prop :=
  exists first_day end_day,
    day_of_string start_date = Some first_day /\
    day_of_string end_date = Some end_day /\
    (first_day <= day < end_day)%Z.

(** ** Data *)

(** The REST client built by [initialize]. *)
Record RestClient : Type :=
  REST { base_url : string; key_id : string; secret_key : string }.

(** The strategy object: the attributes [initialize] sets. *)
Record MLTrader : Type := mkMLTrader {
  symbol : string;
  cash_at_risk : Q;
  sleeptime : string;
  last_trade : option string;
  api : RestClient
}.

Definition with_last_trade (self : MLTrader) (v : option string) : MLTrader :=
  {| symbol := symbol self;
     cash_at_risk := cash_at_risk self;
     sleeptime := sleeptime self;
     last_trade := v;
     api := api self |}.

(** A news item as the news API returns it: [event.__dict__["_raw"]]
    holds the headline. *)
Record RawNews : Type := mkRaw { headline : string }.
Record NewsItem : Type := mkNews { _raw : RawNews }.

(** The arguments of [create_order]. *)
Record OrderSpec : Type := mkOrderSpec {
  order_symbol : string;
  order_quantity : Q;
  order_side : string;
  order_type : string;
  take_profit_price : Q;
  stop_loss_price : Q
}.

(** The order object [create_order] hands back. *)
Inductive Order : Type := OrderHandle (id : nat).

(** ** Observable events *)

Inductive level : Type := INFO | WARNING | ERROR.

Inductive message : Type :=
| Msg_position_sizing_error (e : exn)
| Msg_sentiment (sentiment : string) (probability : Q)
| Msg_sentiment_failed (e : exn)
| Msg_skipping
| Msg_buy_submitted (quantity last_price : Q)
| Msg_sell_submitted (quantity last_price : Q)
| Msg_trade_execution_error (e : exn).

Inductive event : Type :=
| Call_get_cash
| Call_get_last_price (sym : string)
| Call_get_datetime
| Call_get_news (sym start end_ : string)
| Call_estimate_sentiment (headlines : list string)
| Call_sell_all
| Call_create_order (spec : OrderSpec)
| Call_submit_order (o : Order)
| Logged (lvl : level) (m : message)
| Assign_last_trade (v : option string).

(** ** The collaborators' responses during one iteration *)

Record Env : Type := mkEnv {
  env_get_cash : result Q;
  env_get_last_price : string -> result Q;
  env_get_datetime : result datetime;
  env_get_news : string -> string -> string -> result (list NewsItem);
  env_estimate_sentiment : list string -> result (Q * string);
  env_sell_all : result unit;
  env_create_order : OrderSpec -> result Order;
  env_submit_order : Order -> result unit
}.

(** ** The monad of methods *)

Record World : Type := mkWorld { self : MLTrader; trace : list event }.

Definition M (A : Type) : Type := Env -> World -> result A * World.

Definition ret {A} (a : A) : M A := fun _ w => (Val a, w).

Definition raise {A} (e : exn) : M A := fun _ w => (Exn e, w).

Definition bind {A B} (m : M A) (k : A -> M B) : M B :=
  fun env w =>
    match m env w with
    | (Val a, w') => k a env w'
    | (Exn e, w') => (Exn e, w')
    end.

(** [try: m except Exception as e: h e] *)
Definition try_except {A} (m : M A) (h : exn -> M A) : M A :=
  fun env w =>
    match m env w with
    | (Val a, w') => (Val a, w')
    | (Exn e, w') => h e env w'
    end.

Declare Scope py_scope.
Delimit Scope py_scope with py.
Notation "x <- m ;; k" := (bind m (fun x => k))
  (at level 61, m at next level, right associativity) : py_scope.
Notation "' p <- m ;; k" := (bind m (fun x => match x with p => k end))
  (at level 61, p pattern, m at next level, right associativity) : py_scope.
Notation "m ;; k" := (bind m (fun _ => k))
  (at level 61, right associativity) : py_scope.
Open Scope py_scope.

Definition emit (ev : event) : M unit :=
  fun _ w => (Val tt, {| self := self w; trace := trace w ++ [ev] |}).

Definition get_self : M MLTrader := fun _ w => (Val (self w), w).

(** [self.last_trade = v] *)
Definition set_last_trade (v : option string) : M unit :=
  fun _ w => (Val tt, {| self := with_last_trade (self w) v;
                         trace := trace w ++ [Assign_last_trade v] |}).

(** A collaborator call: record it, then answer as the environment does. *)
Definition call {A} (ev : event) (resp : Env -> result A) : M A :=
  fun env w =>
    (resp env, {| self := self w; trace := trace w ++ [ev] |}).

Definition lift {A} (r : result A) : M A := fun _ w => (r, w).

Definition logging (lvl : level) (m : message) : M unit :=
  emit (Logged lvl m).

Definition get_cash : M Q := call Call_get_cash env_get_cash.

Definition get_last_price (sym : string) : M Q :=
  call (Call_get_last_price sym) (fun env => env_get_last_price env sym).

Definition get_datetime : M datetime :=
  call Call_get_datetime env_get_datetime.

Definition api_get_news (sym start end_ : string) : M (list NewsItem) :=
  call (Call_get_news sym start end_)
       (fun env => env_get_news env sym start end_).

Definition estimate_sentiment (headlines : list string) : M (Q * string) :=
  call (Call_estimate_sentiment headlines)
       (fun env => env_estimate_sentiment env headlines).

Definition sell_all : M unit := call Call_sell_all env_sell_all.

Definition create_order (spec : OrderSpec) : M Order :=
  call (Call_create_order spec) (fun env => env_create_order env spec).

Definition submit_order (o : Order) : M unit :=
  call (Call_submit_order o) (fun env => env_submit_order env o).

(** ** The methods of [MLTrader] *)

Definition upper_ascii (c : ascii) : ascii :=
  let n := nat_of_ascii c in
  if ((97 <=? n) && (n <=? 122))%nat then ascii_of_nat (n - 32) else c.

(** [s.upper()], on ASCII. *)
Fixpoint upper (s : string) : string :=
  match s with
  | EmptyString => EmptyString
  | String c s' => String (upper_ascii c) (upper s')
  end.

(** ** Start-up: the module body, [initialize] and the script *)

(** Truthiness of what [os.getenv] returns: [None] and the empty string
    are falsy. *)
Definition truthy (v : option string) : bool :=
  match v with
  | Some (String _ _) => true
  | _ => false
  end.

(** The dictionary [ALPACA_CREDS]. *)
Record AlpacaCreds : Type := mkAlpacaCreds {
  creds_API_KEY : option string;
  creds_API_SECRET : option string;
  creds_PAPER : bool
}.

(** The names the module body binds. *)
Record Globals : Type := mkGlobals {
  API_KEY : option string;
  API_SECRET : option string;
  BASE_URL : option string;
  ALPACA_CREDS : AlpacaCreds
}.

(** The module body (lines 16-42): [getenv] is the process environment as
    [os.getenv] sees it once [load_dotenv()] has run.  The logging set-up has
    no result. *)
Definition load_module (getenv : string -> option string) : result Globals :=
  let api_key := getenv "API_KEY" in
  let api_secret := getenv "API_SECRET" in
  let base_url := getenv "BASE_URL" in
  if negb (truthy api_key) || negb (truthy api_secret)
     || negb (truthy base_url) then
    Exn (ValueError
           "API credentials or BASE_URL not set. Check your .env file.")
  else
    Val {| API_KEY := api_key;
           API_SECRET := api_secret;
           BASE_URL := base_url;
           ALPACA_CREDS := {| creds_API_KEY := api_key;
                              creds_API_SECRET := api_secret;
                              creds_PAPER := true |} |}.

(** The objects the trading framework hands back. *)
Inductive Broker : Type := BrokerHandle (id : nat).
Inductive Strategy : Type := StrategyHandle (id : nat).

(** The [parameters] dictionary of the script. *)
Record Parameters : Type := mkParameters {
  param_symbol : string;
  param_cash_at_risk : Q
}.

(** What start-up code does that can be observed. *)
Inductive startup_message : Type :=
| Msg_rest_failed (e : exn)
| Msg_backtest_failed (e : exn).

Inductive startup_event : Type :=
| Call_REST
| Call_Alpaca (creds : AlpacaCreds)
| Call_MLTrader (name : string) (broker : Broker) (parameters : Parameters)
| Call_backtest (strategy : Strategy) (start_date end_date : datetime)
    (parameters : Parameters)
| Logged_error (m : startup_message)
| Logged_critical (m : startup_message).

(** [initialize]; [new_rest] is the outcome of constructing the REST client
    from [BASE_URL], [API_KEY] and [API_SECRET]. *)
Definition initialize (new_rest : result RestClient)
    (symbol0 : string) (cash_at_risk0 : Q)
  : result MLTrader * list startup_event :=
  if negb (Qgtb cash_at_risk0 0 && Qle_bool cash_at_risk0 1) then
    (Exn (ValueError "cash_at_risk must be between 0 and 1."), [])
  else
    match new_rest with
    | Val client =>
        (Val {| symbol := upper symbol0;
                cash_at_risk := cash_at_risk0;
                sleeptime := "24H";
                last_trade := None;
                api := client |},
         [Call_REST])
    | Exn e => (Exn e, [Call_REST; Logged_error (Msg_rest_failed e)])
    end.

(** What is raised past [except Exception]: the exceptions that derive
    from [BaseException] only. *)
Inductive interrupt : Type :=
| KeyboardInterrupt
| SystemExit (code : Z).

(** How a call of the script ends: it returns, it raises an exception that
    [except Exception] catches, or it raises one that it does not catch. *)
Inductive outcome (A : Type) : Type :=
| Returns (a : A)
| Raises (e : exn)
| Escapes (b : interrupt).
Arguments Returns {A} a.
Arguments Raises {A} e.
Arguments Escapes {A} b.

(** The answers of the trading framework to the script. *)
Record ScriptEnv : Type := mkScriptEnv {
  env_Alpaca : AlpacaCreds -> outcome Broker;
  env_MLTrader : string -> Broker -> Parameters -> outcome Strategy;
  env_backtest :
    Strategy -> datetime -> datetime -> Parameters -> outcome unit
}.

(** [datetime(year, month, day)] *)
Definition datetime_of (year month day : Z) : datetime :=
  {| ordinal := ymd2ord year month day; time_of_day := 0 |}.

Definition script_parameters : Parameters :=
  {| param_symbol := "SPY"; param_cash_at_risk := 0.5 |}.

(** The [try] block of the script (lines 131-147), given the names of the
    module: how it ends and the calls it made. *)
Definition script_body (globals : Globals) (env : ScriptEnv)
  : outcome unit * list startup_event :=
  let start_date := datetime_of 2020 1 1 in
  let end_date := datetime_of 2023 12 31 in
  let creds := ALPACA_CREDS globals in
  match env_Alpaca env creds with
  | Raises e => (Raises e, [Call_Alpaca creds])
  | Escapes b => (Escapes b, [Call_Alpaca creds])
  | Returns broker =>
      match env_MLTrader env "mlstrat" broker script_parameters with
      | Raises e =>
          (Raises e,
           [Call_Alpaca creds;
            Call_MLTrader "mlstrat" broker script_parameters])
      | Escapes b =>
          (Escapes b,
           [Call_Alpaca creds;
            Call_MLTrader "mlstrat" broker script_parameters])
      | Returns strategy =>
          (env_backtest env strategy start_date end_date script_parameters,
           [Call_Alpaca creds;
            Call_MLTrader "mlstrat" broker script_parameters;
            Call_backtest strategy start_date end_date script_parameters])
      end
  end.

(** The script (lines 130-149): the [try] block and its handler. *)
Definition main (globals : Globals) (env : ScriptEnv)
  : outcome unit * list startup_event :=
  match script_body globals env with
  | (Raises e, tr) =>
      (Returns tt, tr ++ [Logged_critical (Msg_backtest_failed e)])
  | (Returns u, tr) => (Returns u, tr)
  | (Escapes b, tr) => (Escapes b, tr)
  end.

Definition position_sizing : M (Q * Q * Q) :=
  try_except
    (cash <- get_cash ;;
     this <- get_self ;;
     last_price <- get_last_price (symbol this) ;;
     q <- lift (py_div (cash * cash_at_risk this) last_price) ;;
     let quantity := inject_Z (round0 q) in
     ret (cash, last_price, quantity))
    (fun e =>
       logging ERROR (Msg_position_sizing_error e) ;;
       ret (0, 0, 0)).

Definition get_dates : M (string * string) :=
  today <- get_datetime ;;
  three_days_prior <- lift (sub_days today 3) ;;
  ret (strftime_ymd today, strftime_ymd three_days_prior).

Definition get_sentiment : M (Q * string) :=
  try_except
    ('(today, three_days_prior) <- get_dates ;;
     this <- get_self ;;
     news_items <- api_get_news (symbol this) three_days_prior today ;;
     let headlines := map (fun event => headline (_raw event)) news_items in
     '(probability, sentiment) <- estimate_sentiment headlines ;;
     logging INFO (Msg_sentiment sentiment probability) ;;
     ret (probability, sentiment))
    (fun e =>
       logging WARNING (Msg_sentiment_failed e) ;;
       ret (0.5, "neutral")).

(** [self.last_trade == s] *)
Definition last_trade_is (this : MLTrader) (s : string) : bool :=
  match last_trade this with
  | Some t => (t =? s)%string
  | None => false
  end.

Definition buy_order (sym : string) (quantity last_price : Q) : OrderSpec :=
  {| order_symbol := sym;
     order_quantity := quantity;
     order_side := "buy";
     order_type := "bracket";
     take_profit_price := last_price * 1.20;
     stop_loss_price := last_price * 0.95 |}.

Definition sell_order (sym : string) (quantity last_price : Q) : OrderSpec :=
  {| order_symbol := sym;
     order_quantity := quantity;
     order_side := "sell";
     order_type := "bracket";
     take_profit_price := last_price * 0.80;
     stop_loss_price := last_price * 1.05 |}.

(** The guarded block of [on_trading_iteration]: the [try] with the
    affordability gate and the two signal branches, and its handler. *)
Definition trade (cash last_price quantity probability : Q)
    (sentiment : string) : M unit :=
  try_except
    (if Qgtb cash last_price then
       if (sentiment =? "positive")%string && Qgtb probability 0.999 then
         this <- get_self ;;
         (if last_trade_is this "sell" then sell_all else ret tt) ;;
         order <- create_order (buy_order (symbol this) quantity last_price) ;;
         submit_order order ;;
         logging INFO (Msg_buy_submitted quantity last_price) ;;
         set_last_trade (Some "buy")
       else if (sentiment =? "negative")%string && Qgtb probability 0.999 then
         this <- get_self ;;
         (if last_trade_is this "buy" then sell_all else ret tt) ;;
         order <- create_order (sell_order (symbol this) quantity last_price) ;;
         submit_order order ;;
         logging INFO (Msg_sell_submitted quantity last_price) ;;
         set_last_trade (Some "sell")
       else ret tt
     else ret tt)
    (fun e => logging ERROR (Msg_trade_execution_error e)).

Definition on_trading_iteration : M unit :=
  '(cash, last_price, quantity) <- position_sizing ;;
  if Qle_bool quantity 0 then
    logging WARNING Msg_skipping
  else
    '(probability, sentiment) <- get_sentiment ;;
    trade cash last_price quantity probability sentiment.

(** The strategy runs one iteration per tick, each against the responses
    of that tick. *)
Fixpoint run_iterations (envs : list Env) (w : World) : result unit * World :=
  match envs with
  | [] => (Val tt, w)
  | env :: rest =>
      match on_trading_iteration env w with
      | (Val _, w') => run_iterations rest w'
      | (Exn e, w') => (Exn e, w')
      end
  end.

(** A strategy object at the start of an iteration. *)
Definition start (this : MLTrader) : World := {| self := this; trace := [] |}.


(** What a method returns, and the events it adds, when it starts from
    the strategy object [this]. *)
Definition sizing_result (env : Env) (this : MLTrader) : result (Q * Q * Q) :=
  fst (position_sizing env (start this)).

Definition sizing_trace (env : Env) (this : MLTrader) : list event :=
  trace (snd (position_sizing env (start this))).

Definition sentiment_result (env : Env) (this : MLTrader) : result (Q * string) :=
  fst (get_sentiment env (start this)).

Definition sentiment_trace (env : Env) (this : MLTrader) : list event :=
  trace (snd (get_sentiment env (start this))).

(** The world an iteration ends in. *)
Definition after_iteration (env : Env) (this : MLTrader) : World :=
  snd (on_trading_iteration env (start this)).

(** The world a run of iterations ends in. *)
Definition after_run (envs : list Env) (this : MLTrader) : World :=
  snd (run_iterations envs (start this)).

(** ** Views of a trace *)

(** Broker actions and writes of the strategy state. *)
Definition is_action (ev : event) : bool :=
  match ev with
  | Call_sell_all | Call_create_order _ | Call_submit_order _
  | Assign_last_trade _ => true
  | _ => false
  end.

Definition actions (tr : list event) : list event := filter is_action tr.

(** Broker calls alone. *)
Definition is_broker_call (ev : event) : bool :=
  match ev with
  | Call_sell_all | Call_create_order _ | Call_submit_order _ => true
  | _ => false
  end.

Definition broker_calls (tr : list event) : list event :=
  filter is_broker_call tr.

(** Writes of the strategy state. *)
Definition is_assignment (ev : event) : bool :=
  match ev with
  | Assign_last_trade _ => true
  | _ => false
  end.

(** Calls made by the Sentiment Gate. *)
Definition is_sentiment_call (ev : event) : bool :=
  match ev with
  | Call_get_datetime | Call_get_news _ _ _ | Call_estimate_sentiment _ => true
  | _ => false
  end.

Definition sentiment_calls (tr : list event) : list event :=
  filter is_sentiment_call tr.

(** ** The shape of the two signal branches *)

(** Both branches of [trade] have one shape: liquidate when the last trade
    was in the opposite direction [opposite], build the order, submit it,
    log, record the new direction; any raise ends in the handler. *)
Definition attempt (opposite : string) (spec : OrderSpec) (msg : message)
    (side : string) : M unit :=
  try_except
    (this <- get_self ;;
     (if last_trade_is this opposite then sell_all else ret tt) ;;
     order <- create_order spec ;;
     submit_order order ;;
     logging INFO msg ;;
     set_last_trade (Some side))
    (fun e => logging ERROR (Msg_trade_execution_error e)).

Definition buy_signal (probability : Q) (sentiment : string) : bool :=
  (sentiment =? "positive")%string && Qgtb probability 0.999.

Definition sell_signal (probability : Q) (sentiment : string) : bool :=
  (sentiment =? "negative")%string && Qgtb probability 0.999.

(** The events of the liquidation step. *)
Definition liquidation (this : MLTrader) (opposite : string) : list event :=
  if last_trade_is this opposite then [Call_sell_all] else [].

(** The branch an iteration takes: the opposite direction that calls for
    a liquidation, the order, the log line and the direction recorded. *)
Inductive branch (this : MLTrader) (quantity last_price : Q) :
  string -> string -> OrderSpec -> message -> string -> Prop :=
| buy_branch :
    branch this quantity last_price "positive" "sell"
      (buy_order (symbol this) quantity last_price)
      (Msg_buy_submitted quantity last_price) "buy"
| sell_branch :
    branch this quantity last_price "negative" "buy"
      (sell_order (symbol this) quantity last_price)
      (Msg_sell_submitted quantity last_price) "sell".

(** ** Statements about an iteration *)

(** Liquidation, order construction and order submission all go through
    for the order [spec]; [order] is the order object built. *)
Definition broker_accepts (env : Env) (spec : OrderSpec) (order : Order) : Prop :=
  env_sell_all env = Val tt /\
  env_create_order env spec = Val order /\
  env_submit_order env order = Val tt.

(** A reversal to the buy side: liquidation, then one buy bracket order,
    then the new direction is recorded. *)
Definition reversal_to_buy (env : Env) (this : MLTrader)
    (quantity last_price : Q) : Prop :=
  exists order,
    env_create_order env (buy_order (symbol this) quantity last_price)
      = Val order /\
    actions (trace (after_iteration env this)) =
      [Call_sell_all;
       Call_create_order (buy_order (symbol this) quantity last_price);
       Call_submit_order order;
       Assign_last_trade (Some "buy")] /\
    last_trade (self (after_iteration env this)) = Some "buy".

(** The statement that every strong positive signal after a sell is such a
    reversal, whatever the broker answers. *)
Definition every_reversal_buys (env : Env) (this : MLTrader) : Prop :=
  forall cash last_price quantity p,
    sizing_result env this = Val (cash, last_price, quantity) ->
    0 < quantity -> last_price < cash ->
    last_trade this = Some "sell" ->
    sentiment_result env this = Val (p, "positive") ->
    0.999 < p ->
    reversal_to_buy env this quantity last_price.

(** The direction of the signal is opposite to the last trade. *)
Definition direction_reverses (env : Env) (this : MLTrader) : Prop :=
  exists p, 0.999 < p /\
    ((last_trade this = Some "sell" /\
      sentiment_result env this = Val (p, "positive")) \/
     (last_trade this = Some "buy" /\
      sentiment_result env this = Val (p, "negative"))).

(** One order of [spec] is built and submitted, and the broker is asked
    nothing else: no liquidation comes before it. *)
Definition stacks_order (env : Env) (this : MLTrader) (spec : OrderSpec)
  : Prop :=
  exists order,
    env_create_order env spec = Val order /\
    broker_calls (trace (after_iteration env this)) =
      [Call_create_order spec; Call_submit_order order].

(** The statement that every strong signal in the direction of the last
    trade (or with no last trade) submits an order, whatever the sizing and
    the broker's answers. *)
Definition every_same_direction_signal_submits (env : Env) (this : MLTrader)
  : Prop :=
  forall cash last_price quantity p,
    sizing_result env this = Val (cash, last_price, quantity) ->
    0.999 < p ->
    (sentiment_result env this = Val (p, "positive") ->
     last_trade this = None \/ last_trade this = Some "buy" ->
     stacks_order env this (buy_order (symbol this) quantity last_price)) /\
    (sentiment_result env this = Val (p, "negative") ->
     last_trade this = None \/ last_trade this = Some "sell" ->
     stacks_order env this (sell_order (symbol this) quantity last_price)).

(** The Sentiment Gate asks for the headlines of the three days before
    [today], [today] itself left out, and hands them to the scoring model in
    the order of the answer. *)
Definition requests_window (env : Env) (this : MLTrader) (today : datetime)
  : Prop :=
  exists start_date end_date scoring,
    sentiment_calls (sentiment_trace env this) =
      Call_get_datetime
      :: Call_get_news (symbol this) start_date end_date
      :: scoring /\
    (forall day,
       request_covers start_date end_date day <->
       (ordinal today - 3 <= day < ordinal today)%Z) /\
    match env_get_news env (symbol this) start_date end_date with
    | Val items =>
        scoring = [Call_estimate_sentiment
                     (map (fun event => headline (_raw event)) items)]
    | Exn _ => scoring = []
    end.

(** The statement that this holds for every datetime the time source can
    supply. *)
Definition every_date_is_requested (env : Env) (this : MLTrader) : Prop :=
  forall today,
    valid_datetime today ->
    env_get_datetime env = Val today ->
    requests_window env this today.

(** A raise of the time source, the news fetch or the scoring model inside
    the Sentiment Gate. *)
Inductive sentiment_lookup_raises (env : Env) (this : MLTrader) : Prop :=
| time_source_raises (e : exn) :
    env_get_datetime env = Exn e ->
    sentiment_lookup_raises env this
| news_fetch_raises (today : datetime) (e : exn) :
    env_get_datetime env = Val today ->
    env_get_news env (symbol this) (strftime_ymd (minus_days today 3))
      (strftime_ymd today) = Exn e ->
    sentiment_lookup_raises env this
| scoring_raises (today : datetime) (items : list NewsItem) (e : exn) :
    env_get_datetime env = Val today ->
    env_get_news env (symbol this) (strftime_ymd (minus_days today 3))
      (strftime_ymd today) = Val items ->
    env_estimate_sentiment env
      (map (fun event => headline (_raw event)) items) = Exn e ->
    sentiment_lookup_raises env this.

(** A raise of the liquidation, of the order construction or of the order
    submission, among the calls of the trace [tr]. *)
Inductive order_step_raises (env : Env) (tr : list event) (e : exn) : Prop :=
| liquidation_raises :
    In Call_sell_all tr -> env_sell_all env = Exn e ->
    order_step_raises env tr e
| construction_raises (spec : OrderSpec) :
    In (Call_create_order spec) tr -> env_create_order env spec = Exn e ->
    order_step_raises env tr e
| submission_raises (order : Order) :
    In (Call_submit_order order) tr -> env_submit_order env order = Exn e ->
    order_step_raises env tr e.

(** ** Sample ticks *)

Definition alpaca : RestClient :=
  REST "https://paper-api.alpaca.markets" "key" "secret".

Definition spy : MLTrader := mkMLTrader "SPY" 0.5 "24H" None alpaca.
Definition spy_short : MLTrader := with_last_trade spy (Some "sell").
Definition spy_long : MLTrader := with_last_trade spy (Some "buy").

(** The same strategy with all its cash at risk. *)
Definition spy_all_in : MLTrader := mkMLTrader "SPY" 1 "24H" None alpaca.

Definition some_news : list NewsItem :=
  [mkNews (mkRaw "Stocks rally"); mkNews (mkRaw "Fed holds rates");
   mkNews (mkRaw "Earnings beat")].

(** A tick with [cash] in the account, the instrument at [price], the
    scoring model answering [signal] and a broker that accepts orders. *)
Definition tick (cash price : Q) (signal : result (Q * string)) : Env :=
  {| env_get_cash := Val cash;
     env_get_last_price := fun _ => Val price;
     env_get_datetime := Val (mkDatetime 738885 34200000000);
     env_get_news := fun _ _ _ => Val some_news;
     env_estimate_sentiment := fun _ => signal;
     env_sell_all := Val tt;
     env_create_order := fun _ => Val (OrderHandle 1);
     env_submit_order := fun _ => Val tt |}.

(** The same tick at the time [today]. *)
Definition tick_on (today : datetime) (cash price : Q)
    (signal : result (Q * string)) : Env :=
  {| env_get_cash := Val cash;
     env_get_last_price := fun _ => Val price;
     env_get_datetime := Val today;
     env_get_news := fun _ _ _ => Val some_news;
     env_estimate_sentiment := fun _ => signal;
     env_sell_all := Val tt;
     env_create_order := fun _ => Val (OrderHandle 1);
     env_submit_order := fun _ => Val tt |}.

(** The same tick with a broker that refuses the liquidation. *)
Definition tick_no_liquidation (cash price : Q) (signal : result (Q * string))
  : Env :=
  {| env_get_cash := Val cash;
     env_get_last_price := fun _ => Val price;
     env_get_datetime := Val (mkDatetime 738885 34200000000);
     env_get_news := fun _ _ _ => Val some_news;
     env_estimate_sentiment := fun _ => signal;
     env_sell_all := Exn (CollaboratorError "sell_all");
     env_create_order := fun _ => Val (OrderHandle 1);
     env_submit_order := fun _ => Val tt |}.

(** A tick on which the news API is down. *)
Definition tick_no_news (cash price : Q) : Env :=
  {| env_get_cash := Val cash;
     env_get_last_price := fun _ => Val price;
     env_get_datetime := Val (mkDatetime 738885 34200000000);
     env_get_news := fun _ _ _ => Exn (CollaboratorError "get_news");
     env_estimate_sentiment := fun _ => Val (0.9995, "positive");
     env_sell_all := Val tt;
     env_create_order := fun _ => Val (OrderHandle 1);
     env_submit_order := fun _ => Val tt |}.

(** A tick on which the account lookup fails. *)
Definition tick_no_cash (price : Q) : Env :=
  {| env_get_cash := Exn (CollaboratorError "get_cash");
     env_get_last_price := fun _ => Val price;
     env_get_datetime := Val (mkDatetime 738885 34200000000);
     env_get_news := fun _ _ _ => Val some_news;
     env_estimate_sentiment := fun _ => Val (0.9995, "positive");
     env_sell_all := Val tt;
     env_create_order := fun _ => Val (OrderHandle 1);
     env_submit_order := fun _ => Val tt |}.

(** ** Tactics *)

(** Unfolding of the monad and of the collaborator calls. *)
Ltac unfold_py :=
  unfold bind, try_except, ret, raise, lift, logging, emit, call, get_self,
    set_last_trade in *.

Ltac unfold_calls :=
  unfold get_cash, get_last_price, get_datetime, api_get_news,
    estimate_sentiment, sell_all, create_order, submit_order in *.

(** Case analysis of a membership in an explicit list of events. *)
Ltac split_in :=
  repeat match goal with
         | H : In _ (_ ++ _) |- _ => apply in_app_or in H
         | H : _ \/ _ |- _ => destruct H
         | H : In _ [] |- _ => destruct H
         | H : In _ (_ :: _) |- _ => simpl in H
         | H : False |- _ => destruct H
         | H : @eq event _ ?x |- _ => is_var x; subst x
         | H : Call_create_order _ = Call_create_order _ |- _ =>
             injection H as <-
         | H : Call_submit_order _ = Call_submit_order _ |- _ =>
             injection H as <-
         | H : @eq event _ _ |- _ => discriminate H
         end.

(** Case analysis of the calls and the outcome of the script. *)
Ltac script_in :=
  repeat match goal with
         | H : In _ (_ :: _) |- _ => simpl in H
         | H : In _ [] |- _ => destruct H
         | H : False |- _ => destruct H
         | H : _ \/ _ |- _ => destruct H
         | H : _ /\ _ |- _ => destruct H
         | H : exists _, _ |- _ => destruct H
         | H : @eq startup_event _ _ |- _ =>
             first [discriminate H | injection H as <- | injection H; intros; subst; clear H]
         | H : @eq (outcome _) _ _ |- _ =>
             first [discriminate H | injection H; intros; subst; clear H]
         | H : @eq (outcome _ * _) _ _ |- _ =>
             first [discriminate H | injection H; intros; subst; clear H]
         end.

(** * Properties *)

(** ** Comparisons *)

Lemma Qgtb_true (x y : Q) : Qgtb x y = true <-> y < x.
Proof.
  unfold Qgtb. rewrite negb_true_iff, <- not_true_iff_false, Qle_bool_iff.
  split; [apply Qnot_le_lt | apply Qlt_not_le].
Qed.

Lemma Qgtb_false (x y : Q) : Qgtb x y = false <-> x <= y.
Proof.
  unfold Qgtb. rewrite negb_false_iff. apply Qle_bool_iff.
Qed.

Lemma Qle_bool_false (x y : Q) : Qle_bool x y = false <-> y < x.
Proof.
  rewrite <- not_true_iff_false, Qle_bool_iff.
  split; [apply Qnot_le_lt | apply Qlt_not_le].
Qed.

(** ** Rounding *)

Lemma round0_near (x : Q) :
  x - (1 # 2) <= inject_Z (round0 x) /\ inject_Z (round0 x) <= x + (1 # 2).
Proof.
  unfold round0.
  pose proof (Qfloor_le x) as Hlo.
  pose proof (Qlt_floor x) as Hhi.
  rewrite inject_Z_plus in Hhi. change (inject_Z 1) with 1 in Hhi.
  destruct (Qcompare (x - inject_Z (Qfloor x)) (1 # 2)) eqn:Hc.
  - apply Qeq_alt in Hc.
    destruct (Z.even (Qfloor x)).
    + split; lra.
    + rewrite inject_Z_plus. change (inject_Z 1) with 1. split; lra.
  - apply Qlt_alt in Hc. split; lra.
  - apply Qgt_alt in Hc. rewrite inject_Z_plus. change (inject_Z 1) with 1.
    split; lra.
Qed.

(** ** Running the methods *)

Lemma sub_days_returns (d prior : datetime) (n : Z) :
  sub_days d n = Val prior ->
  prior = minus_days d n /\ (min_ordinal <= ordinal d - n)%Z.
Proof.
  unfold sub_days.
  destruct (ordinal d - n <? min_ordinal)%Z eqn:Hlow; [discriminate|].
  intros H. injection H as <-. apply Z.ltb_ge in Hlow. auto.
Qed.

Lemma sub_days_in_range (d : datetime) (n : Z) :
  (min_ordinal <= ordinal d - n)%Z ->
  sub_days d n = Val (minus_days d n).
Proof.
  intros H. unfold sub_days.
  apply Z.ltb_ge in H. rewrite H. reflexivity.
Qed.

Lemma sub_days_raises (d : datetime) (n : Z) :
  (ordinal d - n < min_ordinal)%Z ->
  sub_days d n = Exn OverflowError.
Proof.
  intros H. unfold sub_days.
  apply Z.ltb_lt in H. rewrite H. reflexivity.
Qed.

Lemma app_cons_assoc {A} (l : list A) (a : A) (l' : list A) :
  (l ++ [a]) ++ l' = l ++ a :: l'.
Proof. now rewrite <- app_assoc. Qed.

Create Rewrite HintDb trace.
#[local] Hint Rewrite @app_cons_assoc @app_nil_r @app_nil_l : trace.

(** The Position Sizer does not depend on the events before it, and does
    not touch the strategy object. *)
Lemma position_sizing_frame (env : Env) (w : World) :
  position_sizing env w =
  (sizing_result env (self w),
   {| self := self w; trace := trace w ++ sizing_trace env (self w) |}).
Proof.
  unfold sizing_result, sizing_trace, position_sizing, start.
  unfold_calls; unfold_py; simpl.
  destruct (env_get_cash env) as [cash|e]; simpl;
    [destruct (env_get_last_price env (symbol (self w))) as [price|e]; simpl;
     [destruct (py_div (cash * cash_at_risk (self w)) price) as [q|e]; simpl|]|];
    now autorewrite with trace.
Qed.

Lemma position_sizing_returns (env : Env) (this : MLTrader) :
  exists r, sizing_result env this = Val r.
Proof.
  unfold sizing_result, position_sizing, start.
  unfold_calls; unfold_py; simpl.
  destruct (env_get_cash env) as [cash|e]; simpl; eauto.
  destruct (env_get_last_price env (symbol this)) as [price|e]; simpl; eauto.
  destruct (py_div (cash * cash_at_risk this) price) as [q|e]; simpl; eauto.
Qed.

Lemma sizing_trace_quiet (env : Env) (this : MLTrader) :
  actions (sizing_trace env this) = [] /\
  sentiment_calls (sizing_trace env this) = [].
Proof.
  unfold sizing_trace, position_sizing, start.
  unfold_calls; unfold_py; simpl.
  destruct (env_get_cash env) as [cash|e]; simpl; auto.
  destruct (env_get_last_price env (symbol this)) as [price|e]; simpl; auto.
  destruct (py_div (cash * cash_at_risk this) price) as [q|e]; simpl; auto.
Qed.

(** The Sentiment Gate, likewise. *)
Lemma get_sentiment_frame (env : Env) (w : World) :
  get_sentiment env w =
  (sentiment_result env (self w),
   {| self := self w; trace := trace w ++ sentiment_trace env (self w) |}).
Proof.
  unfold sentiment_result, sentiment_trace, get_sentiment, get_dates, start.
  unfold_calls; unfold_py; simpl.
  destruct (env_get_datetime env) as [today|e]; simpl;
    [destruct (sub_days today 3) as [prior|e]; simpl;
     [destruct (env_get_news env _ _ _) as [items|e]; simpl;
      [destruct (env_estimate_sentiment env _) as [[p l]|e]; simpl|]|]|];
    now autorewrite with trace.
Qed.

Lemma get_sentiment_returns (env : Env) (this : MLTrader) :
  exists r, sentiment_result env this = Val r.
Proof.
  unfold sentiment_result, get_sentiment, get_dates, start.
  unfold_calls; unfold_py; simpl.
  destruct (env_get_datetime env) as [today|e]; simpl; eauto.
  destruct (sub_days today 3) as [prior|e]; simpl; eauto.
  destruct (env_get_news env _ _ _) as [items|e]; simpl; eauto.
  destruct (env_estimate_sentiment env _) as [[p l]|e]; simpl; eauto.
Qed.

Lemma sentiment_trace_quiet (env : Env) (this : MLTrader) :
  actions (sentiment_trace env this) = [].
Proof.
  unfold sentiment_trace, get_sentiment, get_dates, start.
  unfold_calls; unfold_py; simpl.
  destruct (env_get_datetime env) as [today|e]; simpl; auto.
  destruct (sub_days today 3) as [prior|e]; simpl; auto.
  destruct (env_get_news env _ _ _) as [items|e]; simpl; auto.
  destruct (env_estimate_sentiment env _) as [[p l]|e]; simpl; auto.
Qed.

(** One iteration, unfolded along its two gates. *)
Lemma on_trading_iteration_unfold_at (env : Env) (w : World) :
  on_trading_iteration env w =
  match sizing_result env (self w) with
  | Val (cash, last_price, quantity) =>
      if Qle_bool quantity 0 then
        (Val tt, {| self := self w;
                    trace := (trace w ++ sizing_trace env (self w))
                             ++ [Logged WARNING Msg_skipping] |})
      else
        match sentiment_result env (self w) with
        | Val (probability, sentiment) =>
            trade cash last_price quantity probability sentiment env
              {| self := self w;
                 trace := (trace w ++ sizing_trace env (self w))
                          ++ sentiment_trace env (self w) |}
        | Exn e =>
            (Exn e,
             {| self := self w;
                trace := (trace w ++ sizing_trace env (self w))
                         ++ sentiment_trace env (self w) |})
        end
  | Exn e =>
      (Exn e, {| self := self w;
                 trace := trace w ++ sizing_trace env (self w) |})
  end.
Proof.
  unfold on_trading_iteration, bind at 1.
  rewrite position_sizing_frame. simpl.
  destruct (sizing_result env (self w)) as [[[cash last_price] quantity]|e];
    [|reflexivity].
  destruct (Qle_bool quantity 0); [reflexivity|].
  unfold bind. rewrite get_sentiment_frame. simpl.
  destruct (sentiment_result env (self w)) as [[probability sentiment]|e];
    reflexivity.
Qed.

Lemma on_trading_iteration_unfold (env : Env) (this : MLTrader) :
  on_trading_iteration env (start this) =
  match sizing_result env this with
  | Val (cash, last_price, quantity) =>
      if Qle_bool quantity 0 then
        (Val tt, {| self := this;
                    trace := sizing_trace env this
                             ++ [Logged WARNING Msg_skipping] |})
      else
        match sentiment_result env this with
        | Val (probability, sentiment) =>
            trade cash last_price quantity probability sentiment env
              {| self := this;
                 trace := sizing_trace env this ++ sentiment_trace env this |}
        | Exn e =>
            (Exn e,
             {| self := this;
                trace := sizing_trace env this ++ sentiment_trace env this |})
        end
  | Exn e => (Exn e, {| self := this; trace := sizing_trace env this |})
  end.
Proof.
  rewrite on_trading_iteration_unfold_at. reflexivity.
Qed.

(** ** The two signal branches *)

Lemma trade_cases (env : Env) (w : World) (cash last_price quantity p : Q)
    (sentiment : string) :
  trade cash last_price quantity p sentiment env w =
  if Qgtb cash last_price then
    if buy_signal p sentiment then
      attempt "sell" (buy_order (symbol (self w)) quantity last_price)
        (Msg_buy_submitted quantity last_price) "buy" env w
    else if sell_signal p sentiment then
      attempt "buy" (sell_order (symbol (self w)) quantity last_price)
        (Msg_sell_submitted quantity last_price) "sell" env w
    else (Val tt, w)
  else (Val tt, w).
Proof.
  unfold trade, attempt, buy_signal, sell_signal, try_except.
  destruct (Qgtb cash last_price); [|reflexivity].
  destruct ((sentiment =? "positive")%string && Qgtb p 0.999);
    [reflexivity|].
  destruct ((sentiment =? "negative")%string && Qgtb p 0.999);
    reflexivity.
Qed.

Lemma attempt_run (env : Env) (w : World) (opposite : string)
    (spec : OrderSpec) (msg : message) (side : string) :
  attempt opposite spec msg side env w =
  let liq := liquidation (self w) opposite in
  let failed e tr :=
    (Val tt, {| self := self w;
                trace := trace w ++ liq ++ tr
                         ++ [Logged ERROR (Msg_trade_execution_error e)] |}) in
  match (if last_trade_is (self w) opposite then env_sell_all env
         else Val tt) with
  | Exn e => failed e []
  | Val _ =>
      match env_create_order env spec with
      | Exn e => failed e [Call_create_order spec]
      | Val order =>
          match env_submit_order env order with
          | Exn e => failed e [Call_create_order spec; Call_submit_order order]
          | Val _ =>
              (Val tt,
               {| self := with_last_trade (self w) (Some side);
                  trace := trace w ++ liq
                           ++ [Call_create_order spec;
                               Call_submit_order order;
                               Logged INFO msg;
                               Assign_last_trade (Some side)] |})
          end
      end
  end.
Proof.
  unfold attempt, liquidation.
  unfold_calls; unfold_py; simpl.
  destruct (last_trade_is (self w) opposite); simpl.
  - destruct (env_sell_all env) as [[]|e]; simpl;
      [destruct (env_create_order env spec) as [order|e]; simpl;
       [destruct (env_submit_order env order) as [[]|e]; simpl|]|];
      now autorewrite with trace.
  - destruct (env_create_order env spec) as [order|e]; simpl;
      [destruct (env_submit_order env order) as [[]|e]; simpl|];
      now autorewrite with trace.
Qed.

(** ** Position Sizer *)

Lemma position_sizing_run (env : Env) (this : MLTrader) (cash last_price : Q) :
  env_get_cash env = Val cash ->
  env_get_last_price env (symbol this) = Val last_price ->
  ~ last_price == 0 ->
  sizing_result env this =
    Val (cash, last_price,
         inject_Z (round0 (cash * cash_at_risk this / last_price))) /\
  sizing_trace env this = [Call_get_cash; Call_get_last_price (symbol this)].
Proof.
  intros Hcash Hprice Hnz.
  unfold sizing_result, sizing_trace, position_sizing, start, py_div.
  unfold_calls; unfold_py; simpl.
  rewrite Hcash; simpl. rewrite Hprice; simpl.
  destruct (Qeq_bool last_price 0) eqn:Hz.
  - apply Qeq_bool_iff in Hz. contradiction.
  - split; reflexivity.
Qed.

Lemma position_sizing_lookup_raises (env : Env) (this : MLTrader) (e : exn) :
  env_get_cash env = Exn e \/ env_get_last_price env (symbol this) = Exn e ->
  sizing_result env this = Val (0, 0, 0).
Proof.
  intros H.
  unfold sizing_result, position_sizing, start.
  unfold_calls; unfold_py; simpl.
  destruct (env_get_cash env) as [cash|e1]; simpl; [|reflexivity].
  destruct H as [H|H]; [discriminate|].
  rewrite H. reflexivity.
Qed.

Lemma rounded_quantity_bounds (x price : Q) :
  0 < price ->
  inject_Z (round0 (x / price)) * price <= x + price / 2 /\
  x - price / 2 <= inject_Z (round0 (x / price)) * price.
Proof.
  intros Hpos.
  destruct (round0_near (x / price)) as [Hlo Hhi].
  assert (Hx : x / price * price == x) by (field; lra).
  set (q := inject_Z (round0 (x / price))) in *.
  set (y := x / price) in *.
  split.
  - apply Qle_trans with ((y + (1 # 2)) * price).
    + apply Qmult_le_compat_r; lra.
    + setoid_replace ((y + (1 # 2)) * price) with (y * price + price / 2)
        by field.
      lra.
  - apply Qle_trans with ((y - (1 # 2)) * price).
    + setoid_replace ((y - (1 # 2)) * price) with (y * price - price / 2)
        by field.
      lra.
    + apply Qmult_le_compat_r; lra.
Qed.

(** ** An iteration without a trade *)

Lemma actions_app (tr tr' : list event) :
  actions (tr ++ tr') = actions tr ++ actions tr'.
Proof. apply filter_app. Qed.

Lemma sentiment_calls_app (tr tr' : list event) :
  sentiment_calls (tr ++ tr') = sentiment_calls tr ++ sentiment_calls tr'.
Proof. apply filter_app. Qed.

Lemma lookups_quiet (env : Env) (this : MLTrader) :
  actions (sizing_trace env this ++ sentiment_trace env this) = [].
Proof.
  rewrite actions_app, (proj1 (sizing_trace_quiet env this)),
    sentiment_trace_quiet.
  reflexivity.
Qed.

Lemma trade_unaffordable (env : Env) (w : World) (cash last_price quantity p : Q)
    (sentiment : string) :
  cash <= last_price ->
  trade cash last_price quantity p sentiment env w = (Val tt, w).
Proof.
  intros H. rewrite trade_cases.
  apply Qgtb_false in H. rewrite H. reflexivity.
Qed.

Lemma trade_idle (env : Env) (w : World) (cash last_price quantity p : Q)
    (sentiment : string) :
  buy_signal p sentiment = false ->
  sell_signal p sentiment = false ->
  trade cash last_price quantity p sentiment env w = (Val tt, w).
Proof.
  intros Hb Hs. rewrite trade_cases, Hb, Hs.
  destruct (Qgtb cash last_price); reflexivity.
Qed.

Lemma iteration_skipped (env : Env) (this : MLTrader) (cash last_price quantity : Q) :
  sizing_result env this = Val (cash, last_price, quantity) ->
  quantity <= 0 ->
  on_trading_iteration env (start this) =
  (Val tt, {| self := this;
              trace := sizing_trace env this
                       ++ [Logged WARNING Msg_skipping] |}).
Proof.
  intros Hs Hq. rewrite on_trading_iteration_unfold, Hs.
  apply Qle_bool_iff in Hq. rewrite Hq. reflexivity.
Qed.

Lemma iteration_trades (env : Env) (this : MLTrader)
    (cash last_price quantity p : Q) (sentiment : string) :
  sizing_result env this = Val (cash, last_price, quantity) ->
  0 < quantity ->
  sentiment_result env this = Val (p, sentiment) ->
  on_trading_iteration env (start this) =
  trade cash last_price quantity p sentiment env
    {| self := this;
       trace := sizing_trace env this ++ sentiment_trace env this |}.
Proof.
  intros Hs Hq Hp. rewrite on_trading_iteration_unfold, Hs.
  apply Qle_bool_false in Hq. rewrite Hq, Hp. reflexivity.
Qed.

(** C6.  When the sizing result has [quantity <= 0], the iteration ends
    right after the sizing, with a warning: it returns normally, the
    Sentiment Gate is not called, no broker action or write of the state
    occurs, and the strategy object, [last_trade] included, is as before. *)
Theorem no_quantity_aborts (env : Env) (this : MLTrader)
    (cash last_price quantity : Q) :
  sizing_result env this = Val (cash, last_price, quantity) ->
  quantity <= 0 ->
  fst (on_trading_iteration env (start this)) = Val tt /\
  trace (after_iteration env this)
    = sizing_trace env this ++ [Logged WARNING Msg_skipping] /\
  sentiment_calls (trace (after_iteration env this)) = [] /\
  actions (trace (after_iteration env this)) = [] /\
  self (after_iteration env this) = this.
Proof.
  intros Hs Hq. unfold after_iteration.
  rewrite (iteration_skipped env this cash last_price quantity Hs Hq). simpl.
  destruct (sizing_trace_quiet env this) as [Ha Hc].
  rewrite sentiment_calls_app, actions_app, Ha, Hc.
  repeat split.
Qed.

Lemma no_quantity_aborts_witness :
  fst (on_trading_iteration (tick 50 100 (Val (0.9995, "positive")))
         (start spy_short)) = Val tt /\
  trace (after_iteration (tick 50 100 (Val (0.9995, "positive"))) spy_short)
    = sizing_trace (tick 50 100 (Val (0.9995, "positive"))) spy_short
      ++ [Logged WARNING Msg_skipping] /\
  sentiment_calls
    (trace (after_iteration (tick 50 100 (Val (0.9995, "positive")))
              spy_short)) = [] /\
  actions
    (trace (after_iteration (tick 50 100 (Val (0.9995, "positive")))
              spy_short)) = [] /\
  self (after_iteration (tick 50 100 (Val (0.9995, "positive"))) spy_short)
    = spy_short.
Proof.
  apply (no_quantity_aborts (tick 50 100 (Val (0.9995, "positive")))
           spy_short 50 100 0).
  - reflexivity.
  - apply Qle_refl.
Defined.

(** C7.  When [quantity > 0] but [cash <= last_price], whatever the
    Sentiment Gate returns, the iteration makes no liquidation, builds and
    submits no order, writes no state, and leaves the strategy object,
    [last_trade] included, as it was. *)
Theorem unaffordable_no_order (env : Env) (this : MLTrader)
    (cash last_price quantity : Q) :
  sizing_result env this = Val (cash, last_price, quantity) ->
  0 < quantity ->
  cash <= last_price ->
  fst (on_trading_iteration env (start this)) = Val tt /\
  actions (trace (after_iteration env this)) = [] /\
  self (after_iteration env this) = this.
Proof.
  intros Hs Hq Hc. unfold after_iteration.
  destruct (get_sentiment_returns env this) as [[p sentiment] Hp].
  rewrite (iteration_trades env this _ _ _ _ _ Hs Hq Hp).
  rewrite trade_unaffordable by exact Hc. simpl.
  rewrite lookups_quiet. repeat split.
Qed.

Lemma unaffordable_no_order_witness :
  fst (on_trading_iteration (tick 90 100 (Val (0.9995, "positive")))
         (start (with_last_trade spy_all_in (Some "sell")))) = Val tt /\
  actions
    (trace (after_iteration (tick 90 100 (Val (0.9995, "positive")))
              (with_last_trade spy_all_in (Some "sell")))) = [] /\
  self (after_iteration (tick 90 100 (Val (0.9995, "positive")))
          (with_last_trade spy_all_in (Some "sell")))
    = with_last_trade spy_all_in (Some "sell").
Proof.
  apply (unaffordable_no_order (tick 90 100 (Val (0.9995, "positive")))
           (with_last_trade spy_all_in (Some "sell")) 90 100 1).
  - reflexivity.
  - reflexivity.
  - discriminate.
Defined.

(** C3.  When [quantity > 0] and [cash > last_price] and the probability is
    not above 0.999 (0.99, or 0.999 itself), the iteration submits no order
    and leaves the strategy object, [last_trade] included, as it was,
    whatever the label: both branches test [probability > 0.999]. *)
Theorem below_threshold_no_order (env : Env) (this : MLTrader)
    (cash last_price quantity p : Q) (sentiment : string) :
  sizing_result env this = Val (cash, last_price, quantity) ->
  0 < quantity ->
  last_price < cash ->
  sentiment_result env this = Val (p, sentiment) ->
  p <= 0.999 ->
  fst (on_trading_iteration env (start this)) = Val tt /\
  actions (trace (after_iteration env this)) = [] /\
  self (after_iteration env this) = this.
Proof.
  intros Hs Hq Hc Hp Hlow. unfold after_iteration.
  rewrite (iteration_trades env this _ _ _ _ _ Hs Hq Hp).
  apply Qgtb_false in Hlow.
  rewrite trade_idle;
    [|unfold buy_signal; rewrite Hlow; apply andb_false_r
     |unfold sell_signal; rewrite Hlow; apply andb_false_r].
  simpl. rewrite lookups_quiet. repeat split.
Qed.

Lemma below_threshold_no_order_witness :
  fst (on_trading_iteration (tick 10000 100 (Val (0.99, "positive")))
         (start spy_short)) = Val tt /\
  actions
    (trace (after_iteration (tick 10000 100 (Val (0.99, "positive")))
              spy_short)) = [] /\
  self (after_iteration (tick 10000 100 (Val (0.99, "positive"))) spy_short)
    = spy_short.
Proof.
  apply (below_threshold_no_order (tick 10000 100 (Val (0.99, "positive")))
           spy_short 10000 100 50 0.99 "positive").
  - reflexivity.
  - reflexivity.
  - reflexivity.
  - reflexivity.
  - discriminate.
Defined.

(** ** Sentiment Gate *)

Lemma get_sentiment_default (env : Env) (this : MLTrader) :
  sentiment_lookup_raises env this ->
  sentiment_result env this = Val (0.5, "neutral").
Proof.
  intros H.
  unfold sentiment_result, get_sentiment, get_dates, start.
  unfold_calls; unfold_py; simpl.
  destruct H as [e He | today e Ht He | today items e Ht Hn He].
  - rewrite He. reflexivity.
  - rewrite Ht; simpl.
    destruct (sub_days today 3) as [prior|e0] eqn:Hsub; simpl;
      [|reflexivity].
    apply sub_days_returns in Hsub. destruct Hsub as [-> _].
    rewrite He. reflexivity.
  - rewrite Ht; simpl.
    destruct (sub_days today 3) as [prior|e0] eqn:Hsub; simpl;
      [|reflexivity].
    apply sub_days_returns in Hsub. destruct Hsub as [-> _].
    rewrite Hn; simpl. rewrite He. reflexivity.
Qed.

(** The default signal triggers neither branch. *)
Lemma neutral_no_order (env : Env) (this : MLTrader) :
  sentiment_result env this = Val (0.5, "neutral") ->
  fst (on_trading_iteration env (start this)) = Val tt /\
  actions (trace (after_iteration env this)) = [] /\
  self (after_iteration env this) = this.
Proof.
  intros Hp. unfold after_iteration.
  rewrite on_trading_iteration_unfold.
  destruct (position_sizing_returns env this)
    as [[[cash last_price] quantity] Hs].
  rewrite Hs, Hp.
  destruct (Qle_bool quantity 0).
  - simpl. rewrite actions_app, (proj1 (sizing_trace_quiet env this)).
    repeat split.
  - rewrite trade_idle by reflexivity.
    simpl. rewrite lookups_quiet. repeat split.
Qed.

(** C4.  When the news fetch or the sentiment scoring (or the time source
    before them) raises, the Sentiment Gate returns [(0.5, "neutral")] and
    raises nothing; in that iteration no order is built or submitted, no
    liquidation is made, and the strategy object, [last_trade] included, is
    unchanged. *)
Theorem sentiment_failure_is_neutral (env : Env) (this : MLTrader) :
  sentiment_lookup_raises env this ->
  sentiment_result env this = Val (0.5, "neutral") /\
  fst (on_trading_iteration env (start this)) = Val tt /\
  actions (trace (after_iteration env this)) = [] /\
  self (after_iteration env this) = this.
Proof.
  intros H.
  pose proof (get_sentiment_default env this H) as Hp.
  split; [exact Hp|].
  apply neutral_no_order. exact Hp.
Qed.

Lemma sentiment_failure_is_neutral_witness :
  sentiment_result (tick_no_news 10000 100) spy_short
    = Val (0.5, "neutral") /\
  fst (on_trading_iteration (tick_no_news 10000 100) (start spy_short))
    = Val tt /\
  actions (trace (after_iteration (tick_no_news 10000 100) spy_short)) = [] /\
  self (after_iteration (tick_no_news 10000 100) spy_short) = spy_short.
Proof.
  apply (sentiment_failure_is_neutral (tick_no_news 10000 100) spy_short).
  apply (news_fetch_raises _ _ (mkDatetime 738885 34200000000)
           (CollaboratorError "get_news")); reflexivity.
Defined.

(** *** The dates of the request *)

Lemma month_day_table (leapyear : bool) :
  forallb (month_day_ok leapyear) (map Z.of_nat (seq 0 365)) = true.
Proof. destruct leapyear; vm_compute; reflexivity. Qed.

Lemma month_day_spec (n : Z) (leapyear : bool) :
  (0 <= n < 365)%Z ->
  let '(m, d) := month_day n leapyear in
  (1 <= m <= 12 /\ 1 <= d <= 31 /\
   days_before_month m + b2z ((2 <? m) && leapyear) + d = n + 1)%Z.
Proof.
  intros Hn.
  pose proof (month_day_table leapyear) as Htable.
  rewrite forallb_forall in Htable.
  specialize (Htable n).
  assert (Hin : In n (map Z.of_nat (seq 0 365))).
  { rewrite <- (Z2Nat.id n) by lia. apply in_map. apply in_seq. lia. }
  specialize (Htable Hin). unfold month_day_ok in Htable.
  destruct (month_day n leapyear) as [m d].
  rewrite !andb_true_iff in Htable.
  destruct Htable as ((((H1 & H2) & H3) & H4) & H5).
  apply Z.leb_le in H1, H2, H3, H4. apply Z.eqb_eq in H5. lia.
Qed.

Lemma ord2ymd_unfold (n0 : Z) :
  ord2ymd n0 =
  let n := (n0 - 1)%Z in
  let n400 := (n / 146097)%Z in
  let r1 := (n mod 146097)%Z in
  let n100 := (r1 / 36524)%Z in
  let r2 := (r1 mod 36524)%Z in
  let n4 := (r2 / 1461)%Z in
  let r3 := (r2 mod 1461)%Z in
  let n1 := (r3 / 365)%Z in
  let r4 := (r3 mod 365)%Z in
  let year := (n400 * 400 + 1 + n100 * 100 + n4 * 4 + n1)%Z in
  if ((n1 =? 4) || (n100 =? 4))%Z then ((year - 1)%Z, 12%Z, 31%Z)
  else
    let leapyear := ((n1 =? 3) && (negb (n4 =? 24) || (n100 =? 3)))%Z in
    let '(m, d) := month_day r4 leapyear in (year, m, d).
Proof.
  unfold ord2ymd, month_day. cbv zeta.
  destruct ((_ =? 4) || (_ =? 4))%Z; [reflexivity|].
  destruct (_ <? _)%Z; reflexivity.
Qed.

Lemma ymd2ord_ord2ymd (n : Z) :
  (1 <= n <= 3652059)%Z ->
  let '(y, m, d) := ord2ymd n in
  (1 <= y <= 9999 /\ 1 <= m <= 12 /\ 1 <= d <= 31)%Z /\
  ymd2ord y m d = n.
Proof.
  intros Hn. rewrite ord2ymd_unfold. cbv zeta.
  set (n' := (n - 1)%Z).
  set (n400 := (n' / 146097)%Z).
  set (r1 := (n' mod 146097)%Z).
  set (n100 := (r1 / 36524)%Z).
  set (r2 := (r1 mod 36524)%Z).
  set (n4 := (r2 / 1461)%Z).
  set (r3 := (r2 mod 1461)%Z).
  set (n1 := (r3 / 365)%Z).
  set (r4 := (r3 mod 365)%Z).
  assert (E1 : (n' = 146097 * n400 + r1 /\ 0 <= r1 < 146097)%Z)
    by (unfold n400, r1; split; [apply Z.div_mod; lia | apply Z.mod_pos_bound; lia]).
  assert (E2 : (r1 = 36524 * n100 + r2 /\ 0 <= r2 < 36524)%Z)
    by (unfold n100, r2; split; [apply Z.div_mod; lia | apply Z.mod_pos_bound; lia]).
  assert (E3 : (r2 = 1461 * n4 + r3 /\ 0 <= r3 < 1461)%Z)
    by (unfold n4, r3; split; [apply Z.div_mod; lia | apply Z.mod_pos_bound; lia]).
  assert (E4 : (r3 = 365 * n1 + r4 /\ 0 <= r4 < 365)%Z)
    by (unfold n1, r4; split; [apply Z.div_mod; lia | apply Z.mod_pos_bound; lia]).
  clearbody n400 r1 n100 r2 n4 r3 n1 r4.
  assert (Hn' : (0 <= n' <= 3652058)%Z) by (unfold n'; lia).
  assert (n = n' + 1)%Z by (unfold n'; lia).
  clearbody n'. subst n.
  destruct ((n1 =? 4) || (n100 =? 4))%Z eqn:Hlast.
  - apply orb_true_iff in Hlast. rewrite !Z.eqb_eq in Hlast.
    split; [lia|].
    unfold ymd2ord, is_leap.
    change (days_before_month 12) with 334%Z.
    change (2 <? 12)%Z with true. rewrite andb_true_l.
    repeat match goal with
           | |- context [(?a =? ?b)%Z] => destruct (Z.eqb_spec a b)
           end; cbn [negb andb orb b2z];
      Z.div_mod_to_equations; lia.
  - apply orb_false_iff in Hlast. rewrite !Z.eqb_neq in Hlast.
    set (leapyear := ((n1 =? 3) && (negb (n4 =? 24) || (n100 =? 3)))%Z).
    pose proof (month_day_spec r4 leapyear (proj2 E4)) as Hmd.
    destruct (month_day r4 leapyear) as [m d].
    destruct Hmd as (Hm & Hd & Hsum).
    split; [lia|].
    assert (Hleap : is_leap (n400 * 400 + 1 + n100 * 100 + n4 * 4 + n1)
                    = leapyear).
    { unfold is_leap, leapyear.
      repeat match goal with
             | |- context [(?a =? ?b)%Z] => destruct (Z.eqb_spec a b)
             end; cbn [negb andb orb]; try reflexivity;
        exfalso; Z.div_mod_to_equations; lia. }
    unfold ymd2ord. rewrite Hleap.
    Z.div_mod_to_equations. lia.
Qed.


Lemma digit_value_char (n : Z) :
  digit_value (ascii_of_nat (48 + Z.to_nat (n mod 10))) = Some (n mod 10)%Z.
Proof.
  pose proof (Z.mod_pos_bound n 10 ltac:(lia)) as Hk.
  set (k := (n mod 10)%Z) in *. clearbody k.
  assert (Hcases : (k = 0 \/ k = 1 \/ k = 2 \/ k = 3 \/ k = 4 \/ k = 5 \/
                    k = 6 \/ k = 7 \/ k = 8 \/ k = 9)%Z) by lia.
  (destruct Hcases as [->|[->|[->|[->|[->|[->|[->|[->|[->| ->]]]]]]]]];
    vm_compute; reflexivity).
Qed.

Lemma read_number_digit (n : Z) (s : string) (acc : option Z) :
  read_number (String (ascii_of_nat (48 + Z.to_nat (n mod 10))) s) acc =
  read_number s
    (Some (10 * match acc with Some a => a | None => 0 end + n mod 10)%Z).
Proof. cbn [read_number]. rewrite digit_value_char. reflexivity. Qed.

Lemma read_number_dash (s : string) (acc : option Z) :
  read_number (String "-" s) acc = (acc, String "-" s).
Proof. reflexivity. Qed.

Lemma read_number_end (acc : option Z) :
  read_number EmptyString acc = (acc, EmptyString).
Proof. reflexivity. Qed.

Lemma read_date_printed (y m d : Z) :
  (1 <= y <= 9999)%Z -> (0 <= m <= 99)%Z -> (0 <= d <= 99)%Z ->
  read_date (year_digits y ++ "-" ++ digits2 m ++ "-" ++ digits2 d)
  = Some (y, m, d).
Proof.
  intros Hy Hm Hd.
  unfold read_date, year_digits, digits4, digits2, digit.
  destruct (Z.ltb_spec y 10); [|destruct (Z.ltb_spec y 100);
                                [|destruct (Z.ltb_spec y 1000)]];
    cbn [append];
    rewrite ?read_number_digit, read_number_dash;
    rewrite ?read_number_digit, read_number_dash;
    rewrite ?read_number_digit, read_number_end.
  all: assert (Hm' : (10 * (10 * 0 + (m / 10) mod 10) + m mod 10 = m)%Z)
         by (Z.div_mod_to_equations; lia).
  all: assert (Hd' : (10 * (10 * 0 + (d / 10) mod 10) + d mod 10 = d)%Z)
         by (Z.div_mod_to_equations; lia).
  all: rewrite Hm', Hd'; do 3 f_equal.
  all: Z.div_mod_to_equations; lia.
Qed.

Lemma day_of_string_strftime (d : datetime) :
  (1 <= ordinal d <= 3652059)%Z ->
  day_of_string (strftime_ymd d) = Some (ordinal d).
Proof.
  intros Hd. unfold day_of_string, strftime_ymd.
  pose proof (ymd2ord_ord2ymd (ordinal d) Hd) as Hcal.
  destruct (ord2ymd (ordinal d)) as [[y m] dd].
  destruct Hcal as ((Hy & Hm & Hdd) & Hord).
  rewrite read_date_printed by lia.
  now rewrite Hord.
Qed.

(** C8 (amended).  For every datetime [today] the time source can supply
    from 0001-01-04 on, the Sentiment Gate asks the news API once, for the
    strategy's symbol, with the start date three days before [today] and
    the end date [today], both written year-month-day: the two strings name
    exactly these two days, so that the half-open range of the request
    covers the three days before [today] and not [today].  When the news API
    returns [items], the scoring model is called once, with the headlines
    of [items] in the order of [items]; when it raises, the scoring model
    is not called. *)
Theorem sentiment_window_and_order (env : Env) (this : MLTrader)
    (today : datetime) :
  valid_datetime today ->
  (4 <= ordinal today)%Z ->
  env_get_datetime env = Val today ->
  let start_date := strftime_ymd (minus_days today 3) in
  let end_date := strftime_ymd today in
  day_of_string start_date = Some (ordinal today - 3)%Z /\
  day_of_string end_date = Some (ordinal today) /\
  (forall day,
     request_covers start_date end_date day <->
     (ordinal today - 3 <= day < ordinal today)%Z) /\
  (exists scoring,
     sentiment_calls (sentiment_trace env this) =
       Call_get_datetime
       :: Call_get_news (symbol this) start_date end_date
       :: scoring /\
     match env_get_news env (symbol this) start_date end_date with
     | Val items =>
         scoring = [Call_estimate_sentiment
                      (map (fun event => headline (_raw event)) items)] /\
         forall i,
           nth_error (map (fun event => headline (_raw event)) items) i
           = option_map (fun event => headline (_raw event))
               (nth_error items i)
     | Exn _ => scoring = []
     end) /\
  requests_window env this today.
Proof.
  intros Hvalid Hday Ht start_date end_date.
  unfold valid_datetime, min_ordinal, max_ordinal in Hvalid.
  assert (Hstart : day_of_string start_date = Some (ordinal today - 3)%Z).
  { unfold start_date.
    rewrite day_of_string_strftime by (simpl; lia). reflexivity. }
  assert (Hend : day_of_string end_date = Some (ordinal today)).
  { unfold end_date. apply day_of_string_strftime. lia. }
  assert (Hcovers : forall day,
             request_covers start_date end_date day <->
             (ordinal today - 3 <= day < ordinal today)%Z).
  { intros day. unfold request_covers. rewrite Hstart, Hend. split.
    - intros (first_day & end_day & Hf & He & Hin).
      injection Hf as <-. injection He as <-. exact Hin.
    - intros Hin. eauto. }
  assert (Hcalls :
            sentiment_calls (sentiment_trace env this) =
            Call_get_datetime
            :: Call_get_news (symbol this) start_date end_date
            :: match env_get_news env (symbol this) start_date end_date with
               | Val items =>
                   [Call_estimate_sentiment
                      (map (fun event => headline (_raw event)) items)]
               | Exn _ => []
               end).
  { unfold sentiment_trace, get_sentiment, get_dates, start.
    unfold_calls; unfold_py; simpl.
    rewrite Ht; simpl.
    rewrite sub_days_in_range by (unfold min_ordinal; lia). simpl.
    fold start_date end_date.
    destruct (env_get_news env (symbol this) start_date end_date)
      as [items|e]; simpl; [|reflexivity].
    destruct (env_estimate_sentiment env _) as [[p l]|e]; reflexivity. }
  split; [exact Hstart|]. split; [exact Hend|]. split; [exact Hcovers|].
  split.
  - eexists. split; [exact Hcalls|].
    destruct (env_get_news env (symbol this) start_date end_date)
      as [items|e]; [|reflexivity].
    split; [reflexivity|]. intros i. apply nth_error_map.
  - exists start_date, end_date. eexists.
    split; [exact Hcalls|]. split; [exact Hcovers|].
    destruct (env_get_news env (symbol this) start_date end_date);
      reflexivity.
Qed.

Lemma sentiment_window_and_order_witness :
  day_of_string "2023-12-28" = Some 738882%Z /\
  day_of_string "2023-12-31" = Some 738885%Z /\
  exists scoring,
    sentiment_calls
      (sentiment_trace (tick 10000 100 (Val (0.9995, "positive"))) spy) =
      Call_get_datetime
      :: Call_get_news "SPY" "2023-12-28" "2023-12-31"
      :: scoring /\
    scoring = [Call_estimate_sentiment
                 ["Stocks rally"; "Fed holds rates"; "Earnings beat"]].
Proof.
  destruct (sentiment_window_and_order
              (tick 10000 100 (Val (0.9995, "positive"))) spy
              (mkDatetime 738885 34200000000))
    as (Hstart & Hend & _ & (scoring & Hcalls & Hscoring & _) & _).
  - split; discriminate.
  - discriminate.
  - reflexivity.
  - split; [exact Hstart|]. split; [exact Hend|].
    exists scoring. split; [exact Hcalls | exact Hscoring].
Defined.

(** C8 as stated fails on the first days a datetime can hold: on
    0001-01-02 the day three days before does not exist, the subtraction
    raises [OverflowError], the Sentiment Gate makes no request to the news
    API and returns the neutral default. *)
Lemma no_request_on_the_first_days :
  ~ every_date_is_requested
      (tick_on (mkDatetime 2 0) 10000 100 (Val (0.9995, "positive"))) spy.
Proof.
  intros H.
  destruct (H (mkDatetime 2 0)) as (start_date & end_date & scoring & Hcalls & _).
  - split; discriminate.
  - reflexivity.
  - vm_compute in Hcalls. discriminate.
Qed.

(** ** An iteration with a signal *)

Lemma buy_signal_true (p : Q) (sentiment : string) :
  buy_signal p sentiment = true <-> sentiment = "positive" /\ 0.999 < p.
Proof.
  unfold buy_signal. rewrite andb_true_iff, String.eqb_eq, Qgtb_true.
  reflexivity.
Qed.

Lemma sell_signal_true (p : Q) (sentiment : string) :
  sell_signal p sentiment = true <-> sentiment = "negative" /\ 0.999 < p.
Proof.
  unfold sell_signal. rewrite andb_true_iff, String.eqb_eq, Qgtb_true.
  reflexivity.
Qed.

Lemma last_trade_is_true (this : MLTrader) (s : string) :
  last_trade_is this s = true <-> last_trade this = Some s.
Proof.
  unfold last_trade_is. destruct (last_trade this) as [t|].
  - rewrite String.eqb_eq. split; congruence.
  - split; discriminate.
Qed.

Lemma last_trade_is_other (this : MLTrader) (s t : string) :
  last_trade this = None \/ last_trade this = Some t ->
  (t =? s)%string = false ->
  last_trade_is this s = false.
Proof.
  unfold last_trade_is. intros [H|H] Hne; rewrite H; auto.
Qed.

(** Every iteration either makes no attempt to trade, or is one attempt
    after both lookups. *)
Lemma iteration_cases (env : Env) (this : MLTrader) :
  (fst (on_trading_iteration env (start this)) = Val tt /\
   actions (trace (after_iteration env this)) = [] /\
   self (after_iteration env this) = this) \/
  (exists cash last_price quantity p sentiment opposite spec msg side,
     sizing_result env this = Val (cash, last_price, quantity) /\
     0 < quantity /\ last_price < cash /\
     sentiment_result env this = Val (p, sentiment) /\ 0.999 < p /\
     branch this quantity last_price sentiment opposite spec msg side /\
     on_trading_iteration env (start this) =
     attempt opposite spec msg side env
       {| self := this;
          trace := sizing_trace env this ++ sentiment_trace env this |}).
Proof.
  destruct (position_sizing_returns env this)
    as [[[cash last_price] quantity] Hs].
  destruct (Qle_bool quantity 0) eqn:Hq.
  { left. apply Qle_bool_iff in Hq. unfold after_iteration.
    rewrite (iteration_skipped env this _ _ _ Hs Hq). simpl.
    rewrite actions_app, (proj1 (sizing_trace_quiet env this)).
    repeat split. }
  apply Qle_bool_false in Hq.
  destruct (get_sentiment_returns env this) as [[p sentiment] Hp].
  destruct (Qgtb cash last_price) eqn:Hc.
  2:{ left. apply Qgtb_false in Hc. unfold after_iteration.
      rewrite (iteration_trades env this _ _ _ _ _ Hs Hq Hp).
      rewrite trade_unaffordable by exact Hc. simpl.
      rewrite lookups_quiet. repeat split. }
  apply Qgtb_true in Hc.
  pose proof (iteration_trades env this _ _ _ _ _ Hs Hq Hp) as Hrun.
  rewrite trade_cases in Hrun. simpl in Hrun.
  rewrite (proj2 (Qgtb_true cash last_price) Hc) in Hrun.
  destruct (buy_signal p sentiment) eqn:Hb.
  { right. apply buy_signal_true in Hb. destruct Hb as [-> Hb].
    exists cash, last_price, quantity, p, "positive".
    do 4 eexists. repeat split; eauto. constructor. }
  destruct (sell_signal p sentiment) eqn:Hsell.
  { right. apply sell_signal_true in Hsell. destruct Hsell as [-> Hsell].
    exists cash, last_price, quantity, p, "negative".
    do 4 eexists. repeat split; eauto. constructor. }
  left. unfold after_iteration. rewrite Hrun. simpl.
  rewrite lookups_quiet. repeat split.
Qed.

(** C1 (amended).  When [quantity > 0], [cash > last_price], the last trade
    was a sell, the sentiment is [("positive", p)] with [p > 0.999], and the
    liquidation, the order construction and the order submission all return
    normally, the iteration makes exactly one liquidation call, then builds
    and submits exactly one buy bracket order of [quantity] shares with
    take-profit [last_price * 1.20] and stop-loss [last_price * 0.95], and
    then sets [last_trade] to ["buy"]. *)
Theorem reversal_buys_when_broker_accepts (env : Env) (this : MLTrader)
    (cash last_price quantity p : Q) (order : Order) :
  sizing_result env this = Val (cash, last_price, quantity) ->
  0 < quantity ->
  last_price < cash ->
  last_trade this = Some "sell" ->
  sentiment_result env this = Val (p, "positive") ->
  0.999 < p ->
  broker_accepts env (buy_order (symbol this) quantity last_price) order ->
  fst (on_trading_iteration env (start this)) = Val tt /\
  reversal_to_buy env this quantity last_price /\
  actions (trace (after_iteration env this)) =
    [Call_sell_all;
     Call_create_order
       {| order_symbol := symbol this;
          order_quantity := quantity;
          order_side := "buy";
          order_type := "bracket";
          take_profit_price := last_price * 1.20;
          stop_loss_price := last_price * 0.95 |};
     Call_submit_order order;
     Assign_last_trade (Some "buy")] /\
  self (after_iteration env this) = with_last_trade this (Some "buy").
Proof.
  intros Hs Hq Hc Hl Hp Hhigh (Hliq & Hnew & Hsub).
  pose proof (iteration_trades env this _ _ _ _ _ Hs Hq Hp) as Hrun.
  rewrite trade_cases in Hrun. simpl in Hrun.
  rewrite (proj2 (Qgtb_true cash last_price) Hc) in Hrun.
  rewrite (proj2 (buy_signal_true p "positive") (conj eq_refl Hhigh)) in Hrun.
  rewrite attempt_run in Hrun. unfold liquidation in Hrun. simpl in Hrun.
  rewrite (proj2 (last_trade_is_true this "sell") Hl) in Hrun.
  rewrite Hliq, Hnew, Hsub in Hrun.
  assert (Hacts : actions (trace (after_iteration env this)) =
                  [Call_sell_all;
                   Call_create_order
                     (buy_order (symbol this) quantity last_price);
                   Call_submit_order order;
                   Assign_last_trade (Some "buy")]).
  { unfold after_iteration. rewrite Hrun. simpl.
    rewrite actions_app, lookups_quiet. reflexivity. }
  assert (Hself : self (after_iteration env this)
                  = with_last_trade this (Some "buy")).
  { unfold after_iteration. rewrite Hrun. reflexivity. }
  split; [rewrite Hrun; reflexivity|].
  split; [|split; assumption].
  exists order. split; [exact Hnew|]. split; [exact Hacts|].
  rewrite Hself. reflexivity.
Qed.

Lemma reversal_buys_when_broker_accepts_witness :
  fst (on_trading_iteration (tick 10000 100 (Val (0.9995, "positive")))
         (start spy_short)) = Val tt /\
  reversal_to_buy (tick 10000 100 (Val (0.9995, "positive"))) spy_short
    50 100 /\
  actions
    (trace (after_iteration (tick 10000 100 (Val (0.9995, "positive")))
              spy_short)) =
    [Call_sell_all;
     Call_create_order
       {| order_symbol := "SPY";
          order_quantity := 50;
          order_side := "buy";
          order_type := "bracket";
          take_profit_price := 100 * 1.20;
          stop_loss_price := 100 * 0.95 |};
     Call_submit_order (OrderHandle 1);
     Assign_last_trade (Some "buy")] /\
  self (after_iteration (tick 10000 100 (Val (0.9995, "positive")))
          spy_short) = spy_long.
Proof.
  apply (reversal_buys_when_broker_accepts
           (tick 10000 100 (Val (0.9995, "positive"))) spy_short
           10000 100 50 0.9995 (OrderHandle 1)).
  - reflexivity.
  - reflexivity.
  - reflexivity.
  - reflexivity.
  - reflexivity.
  - reflexivity.
  - repeat split.
Defined.

(** C1 as stated fails when the broker refuses the liquidation: with
    10000 in cash, a price of 100, a last trade ["sell"] and the signal
    [("positive", 0.9995)], the iteration calls [sell_all], which raises;
    no order is submitted and [last_trade] stays ["sell"]. *)
Lemma reversal_fails_when_liquidation_raises :
  ~ every_reversal_buys
      (tick_no_liquidation 10000 100 (Val (0.9995, "positive"))) spy_short.
Proof.
  intros H.
  destruct (H 10000 100 50 0.9995) as (order & _ & _ & Hlast);
    try reflexivity.
  vm_compute in Hlast. discriminate.
Qed.

(** The outcome of an attempt does not depend on the events before it. *)
Lemma attempt_frame (env : Env) (w : World) (opposite : string)
    (spec : OrderSpec) (msg : message) (side : string) :
  attempt opposite spec msg side env w =
  (fst (attempt opposite spec msg side env (start (self w))),
   {| self := self (snd (attempt opposite spec msg side env (start (self w))));
      trace := trace w
               ++ trace (snd (attempt opposite spec msg side env
                                (start (self w)))) |}).
Proof.
  rewrite !attempt_run. simpl.
  destruct (if last_trade_is (self w) opposite then env_sell_all env
            else Val tt) as [u|e]; [|reflexivity].
  destruct (env_create_order env spec) as [order|e]; [|reflexivity].
  destruct (env_submit_order env order) as [u'|e]; reflexivity.
Qed.

Lemma trade_frame (env : Env) (w : World) (cash last_price quantity p : Q)
    (sentiment : string) (tr : list event) :
  trade cash last_price quantity p sentiment env
    {| self := self w; trace := trace w ++ tr |} =
  let r := trade cash last_price quantity p sentiment env
             {| self := self w; trace := tr |} in
  (fst r, {| self := self (snd r); trace := trace w ++ trace (snd r) |}).
Proof.
  rewrite !trade_cases. simpl.
  destruct (Qgtb cash last_price); [|reflexivity].
  destruct (buy_signal p sentiment).
  { rewrite attempt_frame.
    rewrite (attempt_frame env {| self := self w; trace := tr |}).
    simpl. now rewrite app_assoc. }
  destruct (sell_signal p sentiment); [|reflexivity].
  rewrite attempt_frame.
  rewrite (attempt_frame env {| self := self w; trace := tr |}).
  simpl. now rewrite app_assoc.
Qed.

(** An iteration depends on the world it starts in through the strategy
    object only: the events so far are carried along untouched. *)
Lemma on_trading_iteration_frame (env : Env) (w : World) :
  on_trading_iteration env w =
  (fst (on_trading_iteration env (start (self w))),
   {| self := self (after_iteration env (self w));
      trace := trace w ++ trace (after_iteration env (self w)) |}).
Proof.
  unfold after_iteration.
  rewrite on_trading_iteration_unfold, on_trading_iteration_unfold_at.
  destruct (sizing_result env (self w)) as [[[cash last_price] quantity]|e];
    [|reflexivity].
  destruct (Qle_bool quantity 0); [simpl; now rewrite app_assoc|].
  destruct (sentiment_result env (self w)) as [[p sentiment]|e];
    [|simpl; now rewrite app_assoc].
  rewrite <- app_assoc. rewrite trade_frame. reflexivity.
Qed.

(** An iteration returns normally, whatever the collaborators do. *)
Lemma on_trading_iteration_returns (env : Env) (w : World) :
  fst (on_trading_iteration env w) = Val tt.
Proof.
  rewrite on_trading_iteration_frame. simpl.
  destruct (iteration_cases env (self w))
    as [(Hr & _) | (cash & last_price & quantity & p & sentiment & opposite
                    & spec & msg & side & _ & _ & _ & _ & _ & _ & Hrun)].
  - exact Hr.
  - rewrite Hrun, attempt_run. simpl.
    destruct (if last_trade_is (self w) opposite then env_sell_all env
              else Val tt) as [u|e]; [|reflexivity].
    destruct (env_create_order env spec) as [order|e]; [|reflexivity].
    destruct (env_submit_order env order) as [u'|e]; reflexivity.
Qed.

Lemma run_iterations_returns (envs : list Env) (w : World) :
  fst (run_iterations envs w) = Val tt.
Proof.
  revert w. induction envs as [|env envs IH]; intros w; simpl.
  - reflexivity.
  - pose proof (on_trading_iteration_returns env w) as Hr.
    destruct (on_trading_iteration env w) as [[u|e] w'] eqn:Hrun.
    + apply IH.
    + simpl in Hr. discriminate.
Qed.

Lemma broker_calls_actions (tr : list event) :
  broker_calls tr = broker_calls (actions tr).
Proof.
  unfold broker_calls, actions.
  induction tr as [|ev tr IH]; simpl; [reflexivity|].
  destruct ev; simpl; now rewrite IH.
Qed.

Lemma In_actions (ev : event) (tr : list event) :
  is_action ev = true -> In ev tr -> In ev (actions tr).
Proof. intros Ha Hin. apply filter_In. auto. Qed.

(** The broker actions and state writes of an attempt. *)
Lemma attempt_actions (env : Env) (this : MLTrader) (tr : list event)
    (opposite : string) (spec : OrderSpec) (msg : message) (side : string) :
  actions tr = [] ->
  actions (trace (snd (attempt opposite spec msg side env
                         {| self := this; trace := tr |}))) =
  liquidation this opposite ++
  match (if last_trade_is this opposite then env_sell_all env
         else Val tt) with
  | Exn _ => []
  | Val _ =>
      Call_create_order spec ::
      match env_create_order env spec with
      | Exn _ => []
      | Val order =>
          Call_submit_order order ::
          match env_submit_order env order with
          | Exn _ => []
          | Val _ => [Assign_last_trade (Some side)]
          end
      end
  end.
Proof.
  intros Hquiet. rewrite attempt_run. unfold liquidation. simpl.
  destruct (last_trade_is this opposite);
    [destruct (env_sell_all env) as [u|e]|];
    try (destruct (env_create_order env spec) as [order|e];
         [destruct (env_submit_order env order) as [u'|e']|]);
    simpl; rewrite !actions_app, Hquiet; reflexivity.
Qed.

Lemma stacking_run (env : Env) (this : MLTrader)
    (cash last_price quantity p : Q) (sentiment opposite : string)
    (spec : OrderSpec) (msg : message) (side : string) (order : Order) :
  sizing_result env this = Val (cash, last_price, quantity) ->
  0 < quantity ->
  last_price < cash ->
  sentiment_result env this = Val (p, sentiment) ->
  0.999 < p ->
  branch this quantity last_price sentiment opposite spec msg side ->
  last_trade_is this opposite = false ->
  env_create_order env spec = Val order ->
  env_submit_order env order = Val tt ->
  stacks_order env this spec /\
  actions (trace (after_iteration env this)) =
    [Call_create_order spec; Call_submit_order order;
     Assign_last_trade (Some side)] /\
  self (after_iteration env this) = with_last_trade this (Some side).
Proof.
  intros Hs Hq Hc Hp Hhigh Hbranch Hl Hnew Hsub.
  pose proof (iteration_trades env this _ _ _ _ _ Hs Hq Hp) as Hrun.
  rewrite trade_cases in Hrun. simpl in Hrun.
  rewrite (proj2 (Qgtb_true cash last_price) Hc) in Hrun.
  assert (Hattempt :
            on_trading_iteration env (start this) =
            attempt opposite spec msg side env
              {| self := this;
                 trace := sizing_trace env this ++ sentiment_trace env this |}).
  { destruct Hbranch.
    - now rewrite (proj2 (buy_signal_true p "positive")
                     (conj eq_refl Hhigh)) in Hrun.
    - assert (Hb : buy_signal p "negative" = false) by reflexivity.
      rewrite Hb in Hrun.
      now rewrite (proj2 (sell_signal_true p "negative")
                     (conj eq_refl Hhigh)) in Hrun. }
  assert (Hacts : actions (trace (after_iteration env this)) =
                  [Call_create_order spec; Call_submit_order order;
                   Assign_last_trade (Some side)]).
  { unfold after_iteration. rewrite Hattempt.
    rewrite attempt_actions by apply lookups_quiet.
    unfold liquidation. rewrite Hl, Hnew, Hsub. reflexivity. }
  split; [|split; [exact Hacts|]].
  - exists order. split; [exact Hnew|].
    rewrite broker_calls_actions, Hacts. reflexivity.
  - unfold after_iteration. rewrite Hattempt, attempt_run. simpl.
    rewrite Hl, Hnew, Hsub. reflexivity.
Qed.

(** C10 (amended).  A liquidation call occurs only when the direction
    reverses: a strong positive signal after a sell, or a strong negative
    signal after a buy.  When [quantity > 0], [cash > last_price] and the
    order construction and submission return normally, a
    [("positive", p > 0.999)] signal with [last_trade] none or ["buy"]
    builds and submits one buy bracket order with no liquidation call before
    it and records ["buy"]; symmetrically a [("negative", p > 0.999)] signal
    with [last_trade] none or ["sell"] builds and submits one sell bracket
    order with no liquidation call and records ["sell"]. *)
Theorem liquidation_only_on_reversal (env : Env) (this : MLTrader) :
  (In Call_sell_all (trace (after_iteration env this)) ->
   direction_reverses env this) /\
  (forall cash last_price quantity p order,
     sizing_result env this = Val (cash, last_price, quantity) ->
     0 < quantity ->
     last_price < cash ->
     0.999 < p ->
     (sentiment_result env this = Val (p, "positive") ->
      last_trade this = None \/ last_trade this = Some "buy" ->
      env_create_order env (buy_order (symbol this) quantity last_price)
        = Val order ->
      env_submit_order env order = Val tt ->
      stacks_order env this (buy_order (symbol this) quantity last_price) /\
      actions (trace (after_iteration env this)) =
        [Call_create_order (buy_order (symbol this) quantity last_price);
         Call_submit_order order; Assign_last_trade (Some "buy")] /\
      self (after_iteration env this) = with_last_trade this (Some "buy")) /\
     (sentiment_result env this = Val (p, "negative") ->
      last_trade this = None \/ last_trade this = Some "sell" ->
      env_create_order env (sell_order (symbol this) quantity last_price)
        = Val order ->
      env_submit_order env order = Val tt ->
      stacks_order env this (sell_order (symbol this) quantity last_price) /\
      actions (trace (after_iteration env this)) =
        [Call_create_order (sell_order (symbol this) quantity last_price);
         Call_submit_order order; Assign_last_trade (Some "sell")] /\
      self (after_iteration env this) = with_last_trade this (Some "sell"))).
Proof.
  split.
  - intros Hin. apply In_actions in Hin; [|reflexivity].
    destruct (iteration_cases env this)
      as [(_ & Hquiet & _)
         | (cash & last_price & quantity & p & sentiment & opposite & spec
            & msg & side & _ & _ & _ & Hp & Hhigh & Hbranch & Hrun)].
    { rewrite Hquiet in Hin. destruct Hin. }
    unfold after_iteration in Hin. rewrite Hrun in Hin.
    rewrite attempt_actions in Hin by apply lookups_quiet.
    unfold liquidation in Hin.
    destruct (last_trade_is this opposite) eqn:Hl.
    + apply last_trade_is_true in Hl.
      exists p. split; [exact Hhigh|].
      destruct Hbranch; [left | right]; auto.
    + exfalso. simpl in Hin.
      destruct Hin as [Hin|Hin]; [discriminate|].
      destruct (env_create_order env spec) as [order|e]; [|destruct Hin].
      destruct Hin as [Hin|Hin]; [discriminate|].
      destruct (env_submit_order env order) as [u|e]; [|destruct Hin].
      destruct Hin as [Hin|[]]. discriminate.
  - intros cash last_price quantity p order Hs Hq Hc Hhigh. split.
    + intros Hp Hl Hnew Hsub.
      apply (stacking_run env this cash last_price quantity p "positive"
               "sell" _ (Msg_buy_submitted quantity last_price) "buy" order);
        auto.
      * constructor.
      * apply (last_trade_is_other this "sell" "buy"); auto.
    + intros Hp Hl Hnew Hsub.
      apply (stacking_run env this cash last_price quantity p "negative"
               "buy" _ (Msg_sell_submitted quantity last_price) "sell" order);
        auto.
      * constructor.
      * apply (last_trade_is_other this "buy" "sell"); auto.
Qed.

Lemma liquidation_only_on_reversal_witness :
  direction_reverses (tick 10000 100 (Val (0.9995, "positive"))) spy_short /\
  stacks_order (tick 10000 100 (Val (0.9995, "positive"))) spy_long
    (buy_order "SPY" 50 100) /\
  stacks_order (tick 10000 100 (Val (0.9995, "negative"))) spy
    (sell_order "SPY" 50 100).
Proof.
  split; [|split].
  - apply (proj1 (liquidation_only_on_reversal
                    (tick 10000 100 (Val (0.9995, "positive"))) spy_short)).
    vm_compute. tauto.
  - apply (proj1 (proj2 (liquidation_only_on_reversal
                           (tick 10000 100 (Val (0.9995, "positive")))
                           spy_long)
                   10000 100 50 0.9995 (OrderHandle 1)
                   eq_refl eq_refl eq_refl eq_refl));
      auto.
  - apply (proj2 (proj2 (liquidation_only_on_reversal
                           (tick 10000 100 (Val (0.9995, "negative"))) spy)
                   10000 100 50 0.9995 (OrderHandle 1)
                   eq_refl eq_refl eq_refl eq_refl));
      auto.
Defined.

(** C10 as stated fails at the affordability gate: with all cash at risk,
    90 in cash and a price of 100 the quantity is 1, but [cash <= last_price];
    the signal [("positive", 0.9995)] with no last trade submits no order. *)
Lemma same_direction_signal_without_order :
  ~ every_same_direction_signal_submits
      (tick 90 100 (Val (0.9995, "positive"))) spy_all_in.
Proof.
  intros H.
  destruct (H 90 100 1 0.9995 eq_refl eq_refl) as [Hbuy _].
  destruct (Hbuy eq_refl (or_introl eq_refl)) as (order & _ & Hacts).
  vm_compute in Hacts. discriminate.
Qed.

(** ** Failures of the broker *)

(** A raise within an attempt ends in the handler, before any write. *)
Lemma attempt_raise_caught (env : Env) (this : MLTrader) (tr : list event)
    (opposite : string) (spec : OrderSpec) (msg : message) (side : string)
    (e : exn) :
  actions tr = [] ->
  order_step_raises env
    (trace (snd (attempt opposite spec msg side env
                   {| self := this; trace := tr |}))) e ->
  self (snd (attempt opposite spec msg side env
               {| self := this; trace := tr |})) = this /\
  In (Logged ERROR (Msg_trade_execution_error e))
    (trace (snd (attempt opposite spec msg side env
                   {| self := this; trace := tr |}))).
Proof.
  intros Hquiet H.
  assert (Hin : exists ev,
             In ev (actions (trace (snd (attempt opposite spec msg side env
                                            {| self := this; trace := tr |}))))
             /\ match ev with
                | Call_sell_all => env_sell_all env = Exn e
                | Call_create_order spec' => env_create_order env spec' = Exn e
                | Call_submit_order order' =>
                    env_submit_order env order' = Exn e
                | _ => False
                end).
  { destruct H as [Hin He | spec' Hin He | order' Hin He];
      eexists; (split; [apply In_actions; [|exact Hin]; reflexivity|]);
      exact He. }
  clear H. destruct Hin as (ev & Hin & He).
  rewrite attempt_actions in Hin by exact Hquiet.
  rewrite attempt_run. unfold liquidation in *. simpl.
  destruct (last_trade_is this opposite);
    [destruct (env_sell_all env) as [u|e1] eqn:Hliq|];
    try (destruct (env_create_order env spec) as [order|e2] eqn:Hnew;
         [destruct (env_submit_order env order) as [u'|e3] eqn:Hsub|]);
    simpl in *; split_in; simpl in *; try discriminate; try contradiction;
    try congruence;
    (split; [reflexivity|]);
    repeat match goal with
           | H : Exn _ = Exn _ |- _ => injection H as ->
           | H1 : ?x = Exn ?a, H2 : ?x = Exn e |- _ =>
               assert (a = e) by congruence; subst a; clear H2
           end;
    rewrite ?in_app_iff; simpl; auto 10.
Qed.

(** C5.  When the liquidation, the order construction or the order
    submission raises [e], the error is caught and logged, the iteration
    returns normally, and the strategy object, [last_trade] included, is
    exactly as at the start of the iteration; the next iteration then runs
    as it would from that starting state, so nothing but the unchanged
    [last_trade] reaches it. *)
Theorem order_error_is_caught (env : Env) (this : MLTrader) (e : exn) :
  order_step_raises env (trace (after_iteration env this)) e ->
  fst (on_trading_iteration env (start this)) = Val tt /\
  self (after_iteration env this) = this /\
  last_trade (self (after_iteration env this)) = last_trade this /\
  In (Logged ERROR (Msg_trade_execution_error e))
    (trace (after_iteration env this)) /\
  (forall env',
     on_trading_iteration env' (after_iteration env this) =
     (fst (on_trading_iteration env' (start this)),
      {| self := self (after_iteration env' this);
         trace := trace (after_iteration env this)
                  ++ trace (after_iteration env' this) |})).
Proof.
  intros H.
  assert (Hcaught : self (after_iteration env this) = this /\
                    In (Logged ERROR (Msg_trade_execution_error e))
                      (trace (after_iteration env this))).
  { destruct (iteration_cases env this)
      as [(_ & Hquiet & _)
         | (cash & last_price & quantity & p & sentiment & opposite & spec
            & msg & side & _ & _ & _ & _ & _ & _ & Hrun)].
    - exfalso.
      destruct H as [Hin _ | spec Hin _ | order Hin _];
        apply In_actions in Hin; try reflexivity;
        rewrite Hquiet in Hin; destruct Hin.
    - unfold after_iteration in *. rewrite Hrun in *.
      apply attempt_raise_caught; [apply lookups_quiet | exact H]. }
  destruct Hcaught as [Hself Hlog].
  split; [apply on_trading_iteration_returns|].
  split; [exact Hself|].
  split; [now rewrite Hself|].
  split; [exact Hlog|].
  intros env'. rewrite on_trading_iteration_frame, Hself. reflexivity.
Qed.

Lemma order_error_is_caught_witness :
  fst (on_trading_iteration
         (tick_no_liquidation 10000 100 (Val (0.9995, "positive")))
         (start spy_short)) = Val tt /\
  self (after_iteration
          (tick_no_liquidation 10000 100 (Val (0.9995, "positive")))
          spy_short) = spy_short.
Proof.
  destruct (order_error_is_caught
              (tick_no_liquidation 10000 100 (Val (0.9995, "positive")))
              spy_short (CollaboratorError "sell_all"))
    as (Hr & Hself & _).
  - apply liquidation_raises; [vm_compute; tauto | reflexivity].
  - split; [exact Hr | exact Hself].
Defined.

(** ** Writes of the strategy state *)

Lemma last_occurrence {A} (P : A -> Prop) (l pre post : list A) (a b : A) :
  (forall x, In x l -> ~ P x) ->
  P b ->
  l ++ [a] = pre ++ b :: post ->
  pre = l /\ b = a /\ post = [].
Proof.
  revert pre. induction l as [|x l IH]; intros pre Hl Hb Heq.
  - destruct pre as [|y pre]; simpl in Heq.
    + injection Heq as -> <-. auto.
    + injection Heq as _ Heq. destruct pre; discriminate.
  - destruct pre as [|y pre]; simpl in Heq.
    + injection Heq as -> _. exfalso. apply (Hl b); simpl; auto.
    + injection Heq as <- Heq.
      destruct (IH pre) as (-> & -> & ->); auto.
      intros z Hz. apply Hl. simpl. auto.
Qed.

Lemma no_assignment (tr : list event) (v : option string) :
  ~ In (Assign_last_trade v) (actions tr) -> ~ In (Assign_last_trade v) tr.
Proof.
  intros H Hin. apply H. apply In_actions; [reflexivity | exact Hin].
Qed.

(** An attempt writes [last_trade] at most once, as its last step, right
    after a submission that returned normally and the log line for it. *)
Lemma attempt_writes (env : Env) (this : MLTrader) (tr : list event)
    (opposite : string) (spec : OrderSpec) (msg : message) (side : string) :
  actions tr = [] ->
  (self (snd (attempt opposite spec msg side env
                {| self := this; trace := tr |})) = this /\
   forall v,
     ~ In (Assign_last_trade v)
         (trace (snd (attempt opposite spec msg side env
                        {| self := this; trace := tr |})))) \/
  (exists order,
     env_create_order env spec = Val order /\
     env_submit_order env order = Val tt /\
     self (snd (attempt opposite spec msg side env
                  {| self := this; trace := tr |}))
       = with_last_trade this (Some side) /\
     trace (snd (attempt opposite spec msg side env
                   {| self := this; trace := tr |}))
       = (tr ++ liquidation this opposite
             ++ [Call_create_order spec; Call_submit_order order;
                 Logged INFO msg])
         ++ [Assign_last_trade (Some side)] /\
     forall v,
       ~ In (Assign_last_trade v)
           (tr ++ liquidation this opposite
               ++ [Call_create_order spec; Call_submit_order order;
                   Logged INFO msg])).
Proof.
  intros Hquiet.
  pose proof (attempt_actions env this tr opposite spec msg side Hquiet)
    as Hacts.
  rewrite attempt_run in *. unfold liquidation in *. simpl in *.
  destruct (last_trade_is this opposite);
    [destruct (env_sell_all env) as [u|e1]|];
    try (destruct (env_create_order env spec) as [order|e2] eqn:Hnew;
         [destruct (env_submit_order env order) as [[]|e3] eqn:Hsub|]);
    simpl in *;
    try (left; split; [reflexivity|];
         intros v; apply no_assignment; rewrite Hacts; simpl;
         intros Hin; split_in).
  all: right; exists order.
  all: split; [reflexivity|]; split; [exact Hsub|]; split; [reflexivity|].
  all: split; [now rewrite <- app_assoc|].
  all: intros v; apply no_assignment.
  all: rewrite !actions_app, Hquiet; simpl; intros Hin; split_in.
Qed.

(** C9.  Over an iteration the fields [symbol], [cash_at_risk],
    [sleeptime] and [api] keep their values; [last_trade] is written at most
    once, as the last step of the iteration, right after an order
    submission that returned normally (and its log line), and the strategy
    object then differs from the one before in [last_trade] only; with no
    write the strategy object is unchanged. *)
Theorem only_last_trade_is_written (env : Env) (this : MLTrader) :
  symbol (self (after_iteration env this)) = symbol this /\
  cash_at_risk (self (after_iteration env this)) = cash_at_risk this /\
  sleeptime (self (after_iteration env this)) = sleeptime this /\
  api (self (after_iteration env this)) = api this /\
  (forall v pre post,
     trace (after_iteration env this) = pre ++ Assign_last_trade v :: post ->
     post = [] /\
     self (after_iteration env this) = with_last_trade this v /\
     exists pre' order msg,
       pre = pre' ++ [Call_submit_order order; Logged INFO msg] /\
       env_submit_order env order = Val tt) /\
  ((forall v, ~ In (Assign_last_trade v) (trace (after_iteration env this))) ->
   self (after_iteration env this) = this).
Proof.
  assert (Hcases :
    (self (after_iteration env this) = this /\
     forall v, ~ In (Assign_last_trade v) (trace (after_iteration env this)))
    \/
    (exists side order msg pre',
       env_submit_order env order = Val tt /\
       self (after_iteration env this) = with_last_trade this (Some side) /\
       trace (after_iteration env this)
         = (pre' ++ [Call_submit_order order; Logged INFO msg])
           ++ [Assign_last_trade (Some side)] /\
       forall v,
         ~ In (Assign_last_trade v)
             (pre' ++ [Call_submit_order order; Logged INFO msg]))).
  { destruct (iteration_cases env this)
      as [(_ & Hquiet & Hself)
         | (cash & last_price & quantity & p & sentiment & opposite & spec
            & msg & side & _ & _ & _ & _ & _ & _ & Hrun)].
    - left. split; [exact Hself|].
      intros v. apply no_assignment. rewrite Hquiet. auto.
    - unfold after_iteration. rewrite Hrun.
      destruct (attempt_writes env this
                  (sizing_trace env this ++ sentiment_trace env this)
                  opposite spec msg side (lookups_quiet env this))
        as [Hfail | (order & _ & Hsub & Hself & Htrace & Hnone)].
      + left. exact Hfail.
      + right. exists side, order, msg.
        exists ((sizing_trace env this ++ sentiment_trace env this)
                ++ liquidation this opposite ++ [Call_create_order spec]).
        assert (Hshape :
          ((sizing_trace env this ++ sentiment_trace env this)
           ++ liquidation this opposite ++ [Call_create_order spec])
          ++ [Call_submit_order order; Logged INFO msg]
          = (sizing_trace env this ++ sentiment_trace env this)
            ++ liquidation this opposite
            ++ [Call_create_order spec; Call_submit_order order;
                Logged INFO msg]).
        { now rewrite <- !app_assoc. }
        rewrite Hshape. auto. }
  destruct Hcases
    as [(Hself & Hnone)
       | (side & order & msg & pre' & Hsub & Hself & Htrace & Hnone)].
  - rewrite Hself.
    do 4 (split; [reflexivity|]). split; [|reflexivity].
    intros v pre post Heq. exfalso.
    apply (Hnone v). rewrite Heq. apply in_elt.
  - rewrite Hself.
    do 4 (split; [reflexivity|]). split.
    + intros v pre post Heq. rewrite Htrace in Heq.
      destruct (last_occurrence (fun ev => is_assignment ev = true)
                  (pre' ++ [Call_submit_order order; Logged INFO msg])
                  pre post (Assign_last_trade (Some side))
                  (Assign_last_trade v)) as (-> & Hv & ->);
        [|reflexivity|exact Heq|].
      * intros x Hx Hp. destruct x; try discriminate.
        apply (Hnone v0). exact Hx.
      * injection Hv as ->.
        split; [reflexivity|]. split; [reflexivity|].
        exists pre', order, msg. auto.
    + intros Habsent. exfalso.
      apply (Habsent (Some side)). rewrite Htrace.
      apply in_or_app. right. simpl. auto.
Qed.

Lemma only_last_trade_is_written_witness :
  self (after_iteration (tick 10000 100 (Val (0.9995, "positive"))) spy)
    = with_last_trade spy (Some "buy") /\
  self (after_iteration (tick 10000 100 (Val (0.99, "positive"))) spy) = spy.
Proof.
  split.
  - destruct (only_last_trade_is_written
                (tick 10000 100 (Val (0.9995, "positive"))) spy)
      as (_ & _ & _ & _ & Hwrite & _).
    apply (Hwrite (Some "buy")
             [Call_get_cash; Call_get_last_price "SPY"; Call_get_datetime;
              Call_get_news "SPY" "2023-12-28" "2023-12-31";
              Call_estimate_sentiment
                ["Stocks rally"; "Fed holds rates"; "Earnings beat"];
              Logged INFO (Msg_sentiment "positive" 0.9995);
              Call_create_order (buy_order "SPY" 50 100);
              Call_submit_order (OrderHandle 1);
              Logged INFO (Msg_buy_submitted 50 100)]
             []).
    reflexivity.
  - destruct (only_last_trade_is_written
                (tick 10000 100 (Val (0.99, "positive"))) spy)
      as (_ & _ & _ & _ & _ & Hsame).
    apply Hsame.
    intros v Hin. vm_compute in Hin. split_in.
Defined.

(** ** Examples *)

(** The end-to-end example: 10000 in cash at a price of 100 with half the
    cash at risk sizes 50 shares; a [("positive", 0.9995)] signal with no
    last trade submits a buy bracket order with take-profit 120 and
    stop-loss 95, and records ["buy"]. *)
Example end_to_end :
  let w := after_iteration (tick 10000 100 (Val (0.9995, "positive"))) spy in
  trace w =
    [Call_get_cash; Call_get_last_price "SPY"; Call_get_datetime;
     Call_get_news "SPY" "2023-12-28" "2023-12-31";
     Call_estimate_sentiment
       ["Stocks rally"; "Fed holds rates"; "Earnings beat"];
     Logged INFO (Msg_sentiment "positive" 0.9995);
     Call_create_order (buy_order "SPY" 50 100);
     Call_submit_order (OrderHandle 1);
     Logged INFO (Msg_buy_submitted 50 100);
     Assign_last_trade (Some "buy")] /\
  self w = spy_long /\
  take_profit_price (buy_order "SPY" 50 100) == 120 /\
  stop_loss_price (buy_order "SPY" 50 100) == 95.
Proof. repeat split. Qed.

(** Two strong positive signals in a row: the second order is placed on
    top of the first, with no liquidation in between. *)
Example repeated_buy_signals_stack :
  actions
    (trace (snd (run_iterations
                   [tick 10000 100 (Val (0.9995, "positive"));
                    tick 5000 100 (Val (0.9999, "positive"))]
                   (start spy)))) =
    [Call_create_order (buy_order "SPY" 50 100);
     Call_submit_order (OrderHandle 1);
     Assign_last_trade (Some "buy");
     Call_create_order (buy_order "SPY" 25 100);
     Call_submit_order (OrderHandle 1);
     Assign_last_trade (Some "buy")].
Proof. reflexivity. Qed.

(** Rounding goes to the nearest whole number, ties to the even one, so
    the order can cost more than the cash at risk: 10000 in cash, half of it
    at risk, at a price of 3000 buys 2 shares for 6000. *)
Example rounding_can_exceed_cash_at_risk :
  sizing_result (tick 10000 3000 (Val (0.9995, "positive"))) spy
    = Val (10000, 3000, 2) /\
  map round0 [0.5; 1.5; 2.5; 3.5; -0.5; 1.4; 1.6] = [0; 2; 2; 4; 0; 1; 2]%Z.
Proof. split; reflexivity. Qed.

(** ** Start-up *)

Lemma truthy_true (v : option string) :
  truthy v = true <-> exists c s, v = Some (String c s).
Proof.
  destruct v as [[|c s]|]; simpl; split; try discriminate; eauto.
  - intros (c & s & H). discriminate.
  - intros (c' & s' & H). discriminate.
Qed.

Lemma truthy_false (v : option string) :
  truthy v = false <-> v = None \/ v = Some "".
Proof.
  destruct v as [[|c s]|]; simpl; split; auto; try discriminate.
  intros [H|H]; discriminate.
Qed.

Lemma alpaca_call_of_main (globals : Globals) (env : ScriptEnv)
    (creds : AlpacaCreds) :
  In (Call_Alpaca creds) (snd (main globals env)) ->
  creds = ALPACA_CREDS globals.
Proof.
  unfold main, script_body.
  destruct (env_Alpaca env (ALPACA_CREDS globals)) as [broker|e|b]; simpl;
    [destruct (env_MLTrader env "mlstrat" broker script_parameters)
       as [strategy|e|b]; simpl;
     [destruct (env_backtest env strategy _ _ script_parameters)
        as [u|e|b]; simpl|..]|..];
    intros H; script_in; reflexivity.
Qed.

(** X14.  The module loads only when [API_KEY], [API_SECRET] and [BASE_URL]
    are all set to non-empty strings; an unset or empty one raises the
    [ValueError].  When it loads, [ALPACA_CREDS] holds the key and secret of
    the environment with [PAPER] true, and the script constructs the broker
    with exactly these credentials: never with [PAPER] false. *)
Theorem load_module_requires_credentials (getenv : string -> option string) :
  match load_module getenv with
  | Val globals =>
      (exists c s, getenv "API_KEY" = Some (String c s)) /\
      (exists c s, getenv "API_SECRET" = Some (String c s)) /\
      (exists c s, getenv "BASE_URL" = Some (String c s)) /\
      API_KEY globals = getenv "API_KEY" /\
      API_SECRET globals = getenv "API_SECRET" /\
      BASE_URL globals = getenv "BASE_URL" /\
      forall env creds,
        In (Call_Alpaca creds) (snd (main globals env)) ->
        creds = {| creds_API_KEY := getenv "API_KEY";
                   creds_API_SECRET := getenv "API_SECRET";
                   creds_PAPER := true |}
  | Exn e =>
      e = ValueError
            "API credentials or BASE_URL not set. Check your .env file." /\
      exists name,
        In name ["API_KEY"; "API_SECRET"; "BASE_URL"] /\
        (getenv name = None \/ getenv name = Some "")
  end.
Proof.
  unfold load_module.
  destruct (truthy (getenv "API_KEY")) eqn:Hk; simpl.
  2:{ split; [reflexivity|]. exists "API_KEY".
      split; [simpl; auto | now apply truthy_false]. }
  destruct (truthy (getenv "API_SECRET")) eqn:Hs; simpl.
  2:{ split; [reflexivity|]. exists "API_SECRET".
      split; [simpl; auto | now apply truthy_false]. }
  destruct (truthy (getenv "BASE_URL")) eqn:Hu; simpl.
  2:{ split; [reflexivity|]. exists "BASE_URL".
      split; [simpl; auto | now apply truthy_false]. }
  apply truthy_true in Hk, Hs, Hu.
  repeat (split; [assumption || reflexivity|]).
  intros env creds Hin. apply alpaca_call_of_main in Hin. exact Hin.
Qed.


Lemma upper_ascii_idempotent (c : ascii) :
  upper_ascii (upper_ascii c) = upper_ascii c.
Proof. destruct c as [[] [] [] [] [] [] [] []]; reflexivity. Qed.

Lemma upper_idempotent (s : string) : upper (upper s) = upper s.
Proof.
  induction s as [|c s IH]; simpl; [reflexivity|].
  now rewrite upper_ascii_idempotent, IH.
Qed.

(** X12.  [initialize] checks [cash_at_risk] first: a value outside (0, 1]
    raises the [ValueError] before the REST client is constructed.  With a
    valid value the REST client is constructed once; when that raises, the
    error is logged once and the same exception is raised again; when it
    returns, the strategy has that client, the given [cash_at_risk], a
    24-hour sleep time and no last trade. *)
Theorem initialize_outcomes (new_rest : result RestClient)
    (symbol0 : string) (cash_at_risk0 : Q) :
  match initialize new_rest symbol0 cash_at_risk0 with
  | (Val this, log) =>
      0 < cash_at_risk0 /\ cash_at_risk0 <= 1 /\
      new_rest = Val (api this) /\
      log = [Call_REST] /\
      cash_at_risk this = cash_at_risk0 /\
      sleeptime this = "24H" /\
      last_trade this = None
  | (Exn e, log) =>
      (~ (0 < cash_at_risk0 /\ cash_at_risk0 <= 1) /\
       e = ValueError "cash_at_risk must be between 0 and 1." /\
       log = []) \/
      (0 < cash_at_risk0 /\ cash_at_risk0 <= 1 /\
       new_rest = Exn e /\
       log = [Call_REST; Logged_error (Msg_rest_failed e)])
  end.
Proof.
  unfold initialize.
  destruct (Qgtb cash_at_risk0 0) eqn:Hlo; simpl.
  2:{ left. apply Qgtb_false in Hlo. split; [|auto].
      intros [H _]. apply Qlt_not_le in H. contradiction. }
  apply Qgtb_true in Hlo.
  destruct (Qle_bool cash_at_risk0 1) eqn:Hhi; simpl.
  2:{ left. apply Qle_bool_false in Hhi. split; [|auto].
      intros [_ H]. apply Qlt_not_le in Hhi. contradiction. }
  apply Qle_bool_iff in Hhi.
  destruct new_rest as [client|e]; simpl; auto 10.
Qed.

(** X13.  [initialize] stores the symbol in upper case: a symbol and its
    upper-case form initialize the same strategy, and the stored symbol is
    its own upper-case form. *)
Theorem initialize_normalises_symbol (new_rest : result RestClient)
    (symbol0 : string) (cash_at_risk0 : Q) :
  initialize new_rest (upper symbol0) cash_at_risk0
    = initialize new_rest symbol0 cash_at_risk0 /\
  forall this log,
    initialize new_rest symbol0 cash_at_risk0 = (Val this, log) ->
    symbol this = upper symbol0 /\ upper (symbol this) = symbol this.
Proof.
  unfold initialize. rewrite upper_idempotent. split; [reflexivity|].
  intros this log.
  destruct (negb (Qgtb cash_at_risk0 0 && Qle_bool cash_at_risk0 1));
    [discriminate|].
  destruct new_rest as [client|e]; [|discriminate].
  intros H. injection H as <- _. simpl.
  split; [reflexivity | apply upper_idempotent].
Qed.

Lemma initialize_normalises_symbol_witness :
  symbol spy = upper "spy" /\ upper (symbol spy) = symbol spy.
Proof.
  apply (proj2 (initialize_normalises_symbol (Val alpaca) "spy" 0.5)
           spy [Call_REST]).
  reflexivity.
Defined.

(** ** More on the Position Sizer *)

Lemma inject_Z_le_0 (z : Z) : inject_Z z <= 0 <-> (z <= 0)%Z.
Proof. rewrite (Zle_Qle z 0). reflexivity. Qed.

(** Rounding gives nothing to trade up to half a share, the tie included. *)
Lemma round0_nonpos (x : Q) : (round0 x <= 0)%Z <-> x <= 1 # 2.
Proof.
  unfold round0.
  pose proof (Qfloor_le x) as Hlo.
  pose proof (Qlt_floor x) as Hhi.
  rewrite inject_Z_plus in Hhi. change (inject_Z 1) with 1 in Hhi.
  assert (Hcases : (Qfloor x <= -1 \/ Qfloor x = 0 \/ 1 <= Qfloor x)%Z)
    by lia.
  destruct (Qcompare (x - inject_Z (Qfloor x)) (1 # 2)) eqn:Hc;
    [apply Qeq_alt in Hc | apply Qlt_alt in Hc | apply Qgt_alt in Hc];
    destruct Hcases as [Hf|[Hf|Hf]];
    try (rewrite Hf in *; simpl in *; change (inject_Z 0) with 0 in *;
         split; intros; try lia; try lra);
    try (assert (HfQ : inject_Z (Qfloor x) <= -1)
           by (rewrite (Zle_Qle (Qfloor x) (-1)) in Hf; exact Hf));
    try (assert (HfQ : 1 <= inject_Z (Qfloor x))
           by (rewrite (Zle_Qle 1 (Qfloor x)) in Hf; exact Hf));
    try (destruct (Z.even (Qfloor x)));
    split; intros; try lia; try lra.
Qed.

Lemma half_share (x price : Q) :
  0 < price -> (x / price <= 1 # 2 <-> x <= price / 2).
Proof.
  intros Hpos.
  rewrite <- (Qmult_le_r (x / price) (1 # 2) price) by exact Hpos.
  assert (H1 : x / price * price == x) by (field; lra).
  assert (H2 : (1 # 2) * price == price / 2) by field.
  rewrite H1, H2. reflexivity.
Qed.



(** X1.  No exception that [except Exception] catches escapes: when
    each collaborator either returns or raises such an exception, position
    sizing and the Sentiment Gate return a value, an iteration returns
    normally, and so does any run of iterations, whichever of the cash,
    price, time, news, scoring and broker calls raise.  (Exceptions outside
    [Exception], such as [KeyboardInterrupt], are not among the raises of
    an [Env]; no handler of the class catches them.) *)
Theorem caught_exceptions_never_escape (env : Env) (w : World) :
  (exists r, fst (position_sizing env w) = Val r) /\
  (exists r, fst (get_sentiment env w) = Val r) /\
  fst (on_trading_iteration env w) = Val tt /\
  (forall envs, fst (run_iterations (env :: envs) w) = Val tt).
Proof.
  split; [|split; [|split]].
  - rewrite position_sizing_frame. apply position_sizing_returns.
  - rewrite get_sentiment_frame. apply get_sentiment_returns.
  - apply on_trading_iteration_returns.
  - intros envs. apply run_iterations_returns.
Qed.

(** X2.  A price of zero is caught: the division raises, position sizing
    logs the error and returns [(0, 0, 0)], and the iteration ends with the
    skip warning, without consulting the Sentiment Gate or the broker. *)
Theorem zero_price_is_skipped (env : Env) (this : MLTrader)
    (cash last_price : Q) :
  env_get_cash env = Val cash ->
  env_get_last_price env (symbol this) = Val last_price ->
  last_price == 0 ->
  sizing_result env this = Val (0, 0, 0) /\
  on_trading_iteration env (start this) =
    (Val tt,
     {| self := this;
        trace := [Call_get_cash; Call_get_last_price (symbol this);
                  Logged ERROR (Msg_position_sizing_error ZeroDivisionError);
                  Logged WARNING Msg_skipping] |}).
Proof.
  intros Hcash Hprice Hz.
  assert (Hrun : position_sizing env (start this) =
                 (Val (0, 0, 0),
                  {| self := this;
                     trace := [Call_get_cash;
                               Call_get_last_price (symbol this);
                               Logged ERROR
                                 (Msg_position_sizing_error
                                    ZeroDivisionError)] |})).
  { unfold position_sizing, start, py_div.
    unfold_calls; unfold_py; simpl.
    rewrite Hcash; simpl. rewrite Hprice; simpl.
    apply Qeq_bool_iff in Hz. rewrite Hz. reflexivity. }
  assert (Hs : sizing_result env this = Val (0, 0, 0))
    by (unfold sizing_result; now rewrite Hrun).
  split; [exact Hs|].
  rewrite (iteration_skipped env this 0 0 0 Hs) by apply Qle_refl.
  unfold sizing_trace. rewrite Hrun. reflexivity.
Qed.

Lemma zero_price_is_skipped_witness :
  sizing_result (tick 10000 0 (Val (0.9995, "positive"))) spy
    = Val (0, 0, 0) /\
  on_trading_iteration (tick 10000 0 (Val (0.9995, "positive"))) (start spy) =
    (Val tt,
     {| self := spy;
        trace := [Call_get_cash; Call_get_last_price "SPY";
                  Logged ERROR (Msg_position_sizing_error ZeroDivisionError);
                  Logged WARNING Msg_skipping] |}).
Proof.
  apply (zero_price_is_skipped (tick 10000 0 (Val (0.9995, "positive"))) spy
           10000 0); reflexivity.
Defined.



(** X18.  A lookup that raises sizes nothing: when the cash lookup raises,
    the price is not looked up; when the cash lookup returns and the price
    lookup raises, or in the first case, the exception is logged at ERROR,
    position sizing returns [(0, 0, 0)], and the iteration ends with the
    skip warning, with no call of the Sentiment Gate or the broker and the
    strategy object unchanged. *)
Theorem raising_lookup_sizes_nothing (env : Env) (this : MLTrader) (e : exn) :
  env_get_cash env = Exn e \/
  ((exists cash, env_get_cash env = Val cash) /\
   env_get_last_price env (symbol this) = Exn e) ->
  sizing_result env this = Val (0, 0, 0) /\
  (env_get_cash env = Exn e ->
   sizing_trace env this =
     [Call_get_cash; Logged ERROR (Msg_position_sizing_error e)]) /\
  ((exists cash, env_get_cash env = Val cash) ->
   sizing_trace env this =
     [Call_get_cash; Call_get_last_price (symbol this);
      Logged ERROR (Msg_position_sizing_error e)]) /\
  on_trading_iteration env (start this) =
    (Val tt,
     {| self := this;
        trace := sizing_trace env this ++ [Logged WARNING Msg_skipping] |}).
Proof.
  intros H.
  assert (Hs : sizing_result env this = Val (0, 0, 0)).
  { apply (position_sizing_lookup_raises env this e).
    destruct H as [H|[_ H]]; auto. }
  split; [exact Hs|]. split; [|split].
  - intros Hcash.
    unfold sizing_trace, position_sizing, start.
    unfold_calls; unfold_py; simpl. rewrite Hcash. reflexivity.
  - intros [cash Hcash].
    destruct H as [H|[_ Hprice]]; [congruence|].
    unfold sizing_trace, position_sizing, start.
    unfold_calls; unfold_py; simpl.
    rewrite Hcash; simpl. rewrite Hprice. reflexivity.
  - apply (iteration_skipped env this 0 0 0 Hs). apply Qle_refl.
Qed.

Lemma raising_lookup_sizes_nothing_witness :
  sizing_result (tick_no_cash 100) spy = Val (0, 0, 0) /\
  on_trading_iteration (tick_no_cash 100) (start spy) =
    (Val tt,
     {| self := spy;
        trace := sizing_trace (tick_no_cash 100) spy
                 ++ [Logged WARNING Msg_skipping] |}).
Proof.
  destruct (raising_lookup_sizes_nothing (tick_no_cash 100) spy
              (CollaboratorError "get_cash"))
    as (Hs & _ & _ & Hrun).
  - left. reflexivity.
  - split; [exact Hs | exact Hrun].
Defined.

(** X11.  An account with no cash, or with negative cash, never trades:
    with a positive price and a non-negative [cash_at_risk] the quantity is
    not positive, so the iteration is skipped with no call to the Sentiment
    Gate or the broker and no change of state. *)
Theorem no_cash_no_trade (env : Env) (this : MLTrader) (cash last_price : Q) :
  env_get_cash env = Val cash ->
  env_get_last_price env (symbol this) = Val last_price ->
  cash <= 0 ->
  0 < last_price ->
  0 <= cash_at_risk this ->
  on_trading_iteration env (start this) =
    (Val tt,
     {| self := this;
        trace := [Call_get_cash; Call_get_last_price (symbol this);
                  Logged WARNING Msg_skipping] |}).
Proof.
  intros Hcash Hprice Hneg Hpos Hrisk.
  destruct (position_sizing_run env this cash last_price Hcash Hprice)
    as [Hs Htr]; [lra|].
  rewrite (iteration_skipped env this _ _ _ Hs).
  - rewrite Htr. reflexivity.
  - rewrite inject_Z_le_0, round0_nonpos, half_share by exact Hpos.
    apply Qle_trans with 0.
    2:{ setoid_replace (last_price / 2) with (last_price * (1 # 2)) by field.
        lra. }
    setoid_replace (cash * cash_at_risk this)
      with (- ((- cash) * cash_at_risk this)) by ring.
    assert (0 <= (- cash) * cash_at_risk this)
      by (apply Qmult_le_0_compat; lra).
    lra.
Qed.

Lemma no_cash_no_trade_witness :
  on_trading_iteration (tick (-250) 100 (Val (0.9995, "positive")))
    (start spy_short) =
    (Val tt,
     {| self := spy_short;
        trace := [Call_get_cash; Call_get_last_price "SPY";
                  Logged WARNING Msg_skipping] |}).
Proof.
  apply (no_cash_no_trade (tick (-250) 100 (Val (0.9995, "positive")))
           spy_short (-250) 100).
  - reflexivity.
  - reflexivity.
  - discriminate.
  - reflexivity.
  - discriminate.
Defined.

(** ** The orders an iteration builds *)

(** An order is built only past both gates, on a strong signal, and is the
    order of the branch taken. *)
Lemma created_order_of_iteration (env : Env) (this : MLTrader)
    (spec : OrderSpec) :
  In (Call_create_order spec) (trace (after_iteration env this)) ->
  exists cash last_price quantity p sentiment opposite msg side,
    sizing_result env this = Val (cash, last_price, quantity) /\
    0 < quantity /\ last_price < cash /\
    sentiment_result env this = Val (p, sentiment) /\ 0.999 < p /\
    branch this quantity last_price sentiment opposite spec msg side.
Proof.
  intros Hin. apply In_actions in Hin; [|reflexivity].
  destruct (iteration_cases env this)
    as [(_ & Hquiet & _)
       | (cash & last_price & quantity & p & sentiment & opposite & spec0
          & msg & side & Hs & Hq & Hc & Hp & Hhigh & Hbranch & Hrun)].
  { rewrite Hquiet in Hin. destruct Hin. }
  assert (Hspec : spec0 = spec).
  { unfold after_iteration in Hin. rewrite Hrun in Hin.
    rewrite attempt_actions in Hin by apply lookups_quiet.
    unfold liquidation in Hin.
    destruct (last_trade_is this opposite);
      [destruct (env_sell_all env) as [u|e1]|];
      try (destruct (env_create_order env spec0) as [order|e2];
           [destruct (env_submit_order env order) as [u'|e3]|]);
      simpl in Hin; split_in; reflexivity. }
  subst spec0.
  exists cash, last_price, quantity, p, sentiment, opposite, msg, side.
  auto 10.
Qed.

Lemma bracket_around (price : Q) :
  0 < price ->
  price * 0.95 < price /\ price < price * 1.20 /\
  price * 0.80 < price /\ price < price * 1.05.
Proof. intros H. repeat split; lra. Qed.

(** X5.  Every order an iteration builds is a bracket order for the
    strategy's symbol and for the positive quantity of the sizing, on the
    buy or the sell side; a buy has its take-profit at 1.20 and its
    stop-loss at 0.95 of the last price, a sell at 0.80 and 1.05, so that
    with a positive price the stop-loss and the take-profit lie on opposite
    sides of the price, the right way round for the side. *)
Theorem built_orders_are_well_formed (env : Env) (this : MLTrader)
    (spec : OrderSpec) :
  In (Call_create_order spec) (trace (after_iteration env this)) ->
  order_symbol spec = symbol this /\
  order_type spec = "bracket" /\
  0 < order_quantity spec /\
  exists cash last_price,
    sizing_result env this = Val (cash, last_price, order_quantity spec) /\
    last_price < cash /\
    ((order_side spec = "buy" /\
      take_profit_price spec = last_price * 1.20 /\
      stop_loss_price spec = last_price * 0.95 /\
      (0 < last_price ->
       stop_loss_price spec < last_price /\
       last_price < take_profit_price spec)) \/
     (order_side spec = "sell" /\
      take_profit_price spec = last_price * 0.80 /\
      stop_loss_price spec = last_price * 1.05 /\
      (0 < last_price ->
       take_profit_price spec < last_price /\
       last_price < stop_loss_price spec))).
Proof.
  intros Hin.
  destruct (created_order_of_iteration env this spec Hin)
    as (cash & last_price & quantity & p & sentiment & opposite & msg & side
        & Hs & Hq & Hc & _ & _ & Hbranch).
  destruct Hbranch; simpl.
  - repeat (split; [reflexivity || assumption|]).
    exists cash, last_price. split; [exact Hs|]. split; [exact Hc|].
    left. repeat (split; [reflexivity|]).
    intros Hpos. destruct (bracket_around last_price Hpos) as (? & ? & _).
    auto.
  - repeat (split; [reflexivity || assumption|]).
    exists cash, last_price. split; [exact Hs|]. split; [exact Hc|].
    right. repeat (split; [reflexivity|]).
    intros Hpos. destruct (bracket_around last_price Hpos) as (_ & _ & ? & ?).
    auto.
Qed.

Lemma built_orders_are_well_formed_witness :
  order_symbol (sell_order "SPY" 50 100) = symbol spy_long /\
  order_type (sell_order "SPY" 50 100) = "bracket" /\
  0 < order_quantity (sell_order "SPY" 50 100).
Proof.
  destruct (built_orders_are_well_formed
              (tick 10000 100 (Val (0.9995, "negative"))) spy_long
              (sell_order "SPY" 50 100))
    as (Hsym & Htype & Hq & _).
  - vm_compute. tauto.
  - repeat split; assumption.
Defined.

(** X4.  With at most half of the cash at risk and a positive price, every
    order an iteration builds costs less than the cash in the account:
    [quantity * last_price < cash]. *)
Theorem order_costs_less_than_cash (env : Env) (this : MLTrader)
    (cash last_price : Q) (spec : OrderSpec) :
  env_get_cash env = Val cash ->
  env_get_last_price env (symbol this) = Val last_price ->
  0 < last_price ->
  cash_at_risk this <= 1 # 2 ->
  In (Call_create_order spec) (trace (after_iteration env this)) ->
  order_quantity spec * last_price < cash.
Proof.
  intros Hcash Hprice Hpos Hrisk Hin.
  destruct (created_order_of_iteration env this spec Hin)
    as (cash' & last_price' & quantity & p & sentiment & opposite & msg
        & side & Hs & Hq & Hc & _ & _ & Hbranch).
  destruct (position_sizing_run env this cash last_price Hcash Hprice)
    as [Hs' _]; [lra|].
  rewrite Hs' in Hs. injection Hs as <- <- <-.
  assert (Hqty : order_quantity spec
                 = inject_Z (round0 (cash * cash_at_risk this / last_price)))
    by (destruct Hbranch; reflexivity).
  rewrite Hqty.
  destruct (rounded_quantity_bounds (cash * cash_at_risk this) last_price
              Hpos) as [Hup _].
  assert (Hhalf : cash * cash_at_risk this <= cash * (1 # 2)).
  { rewrite !(Qmult_comm cash). apply Qmult_le_compat_r; lra. }
  assert (H2 : last_price / 2 == last_price * (1 # 2)) by field.
  rewrite H2 in Hup. lra.
Qed.

Lemma order_costs_less_than_cash_witness :
  order_quantity (buy_order "SPY" 50 120) * 120 < 12000.
Proof.
  apply (order_costs_less_than_cash
           (tick 12000 120 (Val (0.9995, "positive"))) spy 12000 120
           (buy_order "SPY" 50 120)).
  - reflexivity.
  - reflexivity.
  - reflexivity.
  - discriminate.
  - vm_compute. tauto.
Defined.

(** With all the cash at risk the bound fails: 150 in cash at a price of
    100 rounds 1.5 shares to 2, an order of 200. *)
Example all_in_order_can_exceed_cash :
  sizing_result (tick 150 100 (Val (0.9995, "positive"))) spy_all_in
    = Val (150, 100, 2) /\
  In (Call_create_order (buy_order "SPY" 2 100))
    (trace (after_iteration (tick 150 100 (Val (0.9995, "positive")))
              spy_all_in)).
Proof. split; [reflexivity | vm_compute; tauto]. Qed.

(** X6.  The broker calls of an iteration follow one protocol: at most one
    liquidation, then at most one order construction, then at most one
    submission, in this order.  Nothing is built after a liquidation that
    raised, nothing is submitted after a construction that raised, and the
    order submitted is the one [create_order] returned in this iteration. *)
Theorem broker_calls_follow_protocol (env : Env) (this : MLTrader) :
  exists liq rest,
    broker_calls (trace (after_iteration env this)) = liq ++ rest /\
    (liq = [] \/
     (liq = [Call_sell_all] /\
      (rest = [] <-> exists e, env_sell_all env = Exn e))) /\
    (rest = [] \/
     exists spec,
       (rest = [Call_create_order spec] /\
        exists e, env_create_order env spec = Exn e) \/
       (exists order,
          rest = [Call_create_order spec; Call_submit_order order] /\
          env_create_order env spec = Val order)).
Proof.
  rewrite broker_calls_actions.
  destruct (iteration_cases env this)
    as [(_ & Hquiet & _)
       | (cash & last_price & quantity & p & sentiment & opposite & spec
          & msg & side & _ & _ & _ & _ & _ & _ & Hrun)].
  { rewrite Hquiet. exists [], []. auto. }
  unfold after_iteration. rewrite Hrun.
  rewrite attempt_actions by apply lookups_quiet.
  unfold liquidation.
  destruct (last_trade_is this opposite).
  - exists [Call_sell_all].
    destruct (env_sell_all env) as [u|e1] eqn:Hliq.
    + destruct (env_create_order env spec) as [order|e2] eqn:Hnew.
      * exists [Call_create_order spec; Call_submit_order order].
        destruct (env_submit_order env order) as [u'|e3];
          (split; [reflexivity|]); (split; [right|right; exists spec; eauto]);
          (split; [reflexivity|]);
          (split; [discriminate | intros [e He]; discriminate]).
      * exists [Call_create_order spec].
        split; [reflexivity|]. split; [right|right; exists spec; eauto].
        split; [reflexivity|].
        split; [discriminate | intros [e He]; discriminate].
    + exists []. split; [reflexivity|]. split; [right|auto].
      split; [reflexivity|]. split; eauto.
  - exists []. simpl.
    destruct (env_create_order env spec) as [order|e2] eqn:Hnew.
    + exists [Call_create_order spec; Call_submit_order order].
      destruct (env_submit_order env order) as [u'|e3];
        (split; [reflexivity|]); (split; [auto|right; exists spec; eauto]).
    + exists [Call_create_order spec].
      split; [reflexivity|]. split; [auto|right; exists spec; eauto].
Qed.

(** A reversal on either branch, with a broker that accepts. *)
Lemma reversal_run (env : Env) (this : MLTrader)
    (cash last_price quantity p : Q) (sentiment opposite : string)
    (spec : OrderSpec) (msg : message) (side : string) (order : Order) :
  sizing_result env this = Val (cash, last_price, quantity) ->
  0 < quantity ->
  last_price < cash ->
  sentiment_result env this = Val (p, sentiment) ->
  0.999 < p ->
  branch this quantity last_price sentiment opposite spec msg side ->
  last_trade this = Some opposite ->
  broker_accepts env spec order ->
  fst (on_trading_iteration env (start this)) = Val tt /\
  actions (trace (after_iteration env this)) =
    [Call_sell_all; Call_create_order spec; Call_submit_order order;
     Assign_last_trade (Some side)] /\
  self (after_iteration env this) = with_last_trade this (Some side).
Proof.
  intros Hs Hq Hc Hp Hhigh Hbranch Hl (Hliq & Hnew & Hsub).
  apply last_trade_is_true in Hl.
  pose proof (iteration_trades env this _ _ _ _ _ Hs Hq Hp) as Hrun.
  rewrite trade_cases in Hrun. simpl in Hrun.
  rewrite (proj2 (Qgtb_true cash last_price) Hc) in Hrun.
  assert (Hattempt :
            on_trading_iteration env (start this) =
            attempt opposite spec msg side env
              {| self := this;
                 trace := sizing_trace env this ++ sentiment_trace env this |}).
  { destruct Hbranch.
    - now rewrite (proj2 (buy_signal_true p "positive")
                     (conj eq_refl Hhigh)) in Hrun.
    - assert (Hb : buy_signal p "negative" = false) by reflexivity.
      rewrite Hb in Hrun.
      now rewrite (proj2 (sell_signal_true p "negative")
                     (conj eq_refl Hhigh)) in Hrun. }
  split; [|split].
  - rewrite Hattempt, attempt_run. simpl.
    rewrite Hl, Hliq, Hnew, Hsub. reflexivity.
  - unfold after_iteration. rewrite Hattempt.
    rewrite attempt_actions by apply lookups_quiet.
    unfold liquidation. rewrite Hl, Hliq, Hnew, Hsub. reflexivity.
  - unfold after_iteration. rewrite Hattempt, attempt_run. simpl.
    rewrite Hl, Hliq, Hnew, Hsub. reflexivity.
Qed.

(** X7.  The reversal to the sell side: when [quantity > 0],
    [cash > last_price], the last trade was a buy, the sentiment is
    [("negative", p)] with [p > 0.999] and the broker calls return normally,
    the iteration liquidates once, then builds and submits one sell bracket
    order of [quantity] shares with take-profit [last_price * 0.80] and
    stop-loss [last_price * 1.05], and then sets [last_trade] to ["sell"]. *)
Theorem reversal_sells_when_broker_accepts (env : Env) (this : MLTrader)
    (cash last_price quantity p : Q) (order : Order) :
  sizing_result env this = Val (cash, last_price, quantity) ->
  0 < quantity ->
  last_price < cash ->
  last_trade this = Some "buy" ->
  sentiment_result env this = Val (p, "negative") ->
  0.999 < p ->
  broker_accepts env (sell_order (symbol this) quantity last_price) order ->
  fst (on_trading_iteration env (start this)) = Val tt /\
  actions (trace (after_iteration env this)) =
    [Call_sell_all;
     Call_create_order
       {| order_symbol := symbol this;
          order_quantity := quantity;
          order_side := "sell";
          order_type := "bracket";
          take_profit_price := last_price * 0.80;
          stop_loss_price := last_price * 1.05 |};
     Call_submit_order order;
     Assign_last_trade (Some "sell")] /\
  self (after_iteration env this) = with_last_trade this (Some "sell").
Proof.
  intros Hs Hq Hc Hl Hp Hhigh Hbroker.
  apply (reversal_run env this cash last_price quantity p "negative" "buy"
           (sell_order (symbol this) quantity last_price)
           (Msg_sell_submitted quantity last_price) "sell" order);
    auto.
  constructor.
Qed.

Lemma reversal_sells_when_broker_accepts_witness :
  fst (on_trading_iteration (tick 10000 100 (Val (0.9995, "negative")))
         (start spy_long)) = Val tt /\
  actions
    (trace (after_iteration (tick 10000 100 (Val (0.9995, "negative")))
              spy_long)) =
    [Call_sell_all;
     Call_create_order
       {| order_symbol := "SPY";
          order_quantity := 50;
          order_side := "sell";
          order_type := "bracket";
          take_profit_price := 100 * 0.80;
          stop_loss_price := 100 * 1.05 |};
     Call_submit_order (OrderHandle 1);
     Assign_last_trade (Some "sell")] /\
  self (after_iteration (tick 10000 100 (Val (0.9995, "negative")))
          spy_long) = spy_short.
Proof.
  apply (reversal_sells_when_broker_accepts
           (tick 10000 100 (Val (0.9995, "negative"))) spy_long
           10000 100 50 0.9995 (OrderHandle 1)).
  - reflexivity.
  - reflexivity.
  - reflexivity.
  - reflexivity.
  - reflexivity.
  - reflexivity.
  - repeat split.
Defined.

(** X8.  Labels are matched exactly: a sentiment label other than
    ["positive"] and ["negative"] (["neutral"], or ["Positive"] with a
    capital) triggers nothing, whatever the probability: no broker call, no
    write, the strategy object unchanged. *)
Theorem other_labels_never_trade (env : Env) (this : MLTrader) (p : Q)
    (sentiment : string) :
  sentiment_result env this = Val (p, sentiment) ->
  sentiment <> "positive" ->
  sentiment <> "negative" ->
  fst (on_trading_iteration env (start this)) = Val tt /\
  actions (trace (after_iteration env this)) = [] /\
  self (after_iteration env this) = this.
Proof.
  intros Hp Hpos Hneg. unfold after_iteration.
  rewrite on_trading_iteration_unfold.
  destruct (position_sizing_returns env this)
    as [[[cash last_price] quantity] Hs].
  rewrite Hs, Hp.
  destruct (Qle_bool quantity 0).
  - simpl. rewrite actions_app, (proj1 (sizing_trace_quiet env this)).
    repeat split.
  - apply String.eqb_neq in Hpos, Hneg.
    rewrite trade_idle;
      [|unfold buy_signal; now rewrite Hpos
       |unfold sell_signal; now rewrite Hneg].
    simpl. rewrite lookups_quiet. repeat split.
Qed.

Lemma other_labels_never_trade_witness :
  fst (on_trading_iteration (tick 10000 100 (Val (1, "Positive")))
         (start spy_short)) = Val tt /\
  actions
    (trace (after_iteration (tick 10000 100 (Val (1, "Positive")))
              spy_short)) = [] /\
  self (after_iteration (tick 10000 100 (Val (1, "Positive"))) spy_short)
    = spy_short.
Proof.
  apply (other_labels_never_trade (tick 10000 100 (Val (1, "Positive")))
           spy_short 1 "Positive").
  - reflexivity.
  - discriminate.
  - discriminate.
Defined.

(** X9.  When the time source, the news API and the scoring model all
    return, the Sentiment Gate returns the model's probability and label as
    they are and logs them; this holds for an empty list of news too: the
    model is then called with no headlines and its answer is used, not the
    [(0.5, "neutral")] default.  The first three days a datetime can hold
    are the exception: there the day three days before does not exist, the
    subtraction raises [OverflowError], and the Sentiment Gate returns the
    default without asking the news API or the model. *)
Theorem sentiment_is_the_model_answer (env : Env) (this : MLTrader)
    (today : datetime) (items : list NewsItem) (p : Q) (label : string) :
  env_get_datetime env = Val today ->
  env_get_news env (symbol this) (strftime_ymd (minus_days today 3))
    (strftime_ymd today) = Val items ->
  env_estimate_sentiment env
    (map (fun event => headline (_raw event)) items) = Val (p, label) ->
  ((4 <= ordinal today)%Z ->
   sentiment_result env this = Val (p, label) /\
   sentiment_trace env this =
     [Call_get_datetime;
      Call_get_news (symbol this) (strftime_ymd (minus_days today 3))
        (strftime_ymd today);
      Call_estimate_sentiment
        (map (fun event => headline (_raw event)) items);
      Logged INFO (Msg_sentiment label p)] /\
   (items = [] ->
    In (Call_estimate_sentiment []) (sentiment_trace env this))) /\
  ((ordinal today < 4)%Z ->
   sentiment_result env this = Val (0.5, "neutral") /\
   sentiment_trace env this =
     [Call_get_datetime;
      Logged WARNING (Msg_sentiment_failed OverflowError)]).
Proof.
  intros Ht Hn He. split.
  - intros Hday.
    assert (Hrun : get_sentiment env (start this) =
                   (Val (p, label),
                    {| self := this;
                       trace :=
                         [Call_get_datetime;
                          Call_get_news (symbol this)
                            (strftime_ymd (minus_days today 3))
                            (strftime_ymd today);
                          Call_estimate_sentiment
                            (map (fun event => headline (_raw event)) items);
                          Logged INFO (Msg_sentiment label p)] |})).
    { unfold get_sentiment, get_dates, start.
      unfold_calls; unfold_py; simpl.
      rewrite Ht; simpl.
      rewrite sub_days_in_range by (unfold min_ordinal; lia). simpl.
      rewrite Hn; simpl. rewrite He. reflexivity. }
    unfold sentiment_result, sentiment_trace. rewrite Hrun. simpl.
    split; [reflexivity|]. split; [reflexivity|].
    intros ->. simpl. auto.
  - intros Hday.
    assert (Hrun : get_sentiment env (start this) =
                   (Val (0.5, "neutral"),
                    {| self := this;
                       trace :=
                         [Call_get_datetime;
                          Logged WARNING
                            (Msg_sentiment_failed OverflowError)] |})).
    { unfold get_sentiment, get_dates, start.
      unfold_calls; unfold_py; simpl.
      rewrite Ht; simpl.
      rewrite sub_days_raises by (unfold min_ordinal; lia). reflexivity. }
    unfold sentiment_result, sentiment_trace. rewrite Hrun. simpl.
    split; reflexivity.
Qed.

Lemma sentiment_is_the_model_answer_witness :
  sentiment_result
    {| env_get_cash := Val 10000;
       env_get_last_price := fun _ => Val 100;
       env_get_datetime := Val (mkDatetime 738885 0);
       env_get_news := fun _ _ _ => Val [];
       env_estimate_sentiment := fun _ => Val (0, "neutral");
       env_sell_all := Val tt;
       env_create_order := fun _ => Val (OrderHandle 1);
       env_submit_order := fun _ => Val tt |} spy
  = Val (0, "neutral").
Proof.
  apply (sentiment_is_the_model_answer
           {| env_get_cash := Val 10000;
              env_get_last_price := fun _ => Val 100;
              env_get_datetime := Val (mkDatetime 738885 0);
              env_get_news := fun _ _ _ => Val [];
              env_estimate_sentiment := fun _ => Val (0, "neutral");
              env_sell_all := Val tt;
              env_create_order := fun _ => Val (OrderHandle 1);
              env_submit_order := fun _ => Val tt |} spy
           (mkDatetime 738885 0) [] 0 "neutral");
    try reflexivity.
  discriminate.
Defined.

(** ** Runs of iterations *)

Lemma self_after_iteration (env : Env) (this : MLTrader) :
  self (after_iteration env this) = this \/
  self (after_iteration env this) = with_last_trade this (Some "buy") \/
  self (after_iteration env this) = with_last_trade this (Some "sell").
Proof.
  destruct (iteration_cases env this)
    as [(_ & _ & Hself)
       | (cash & last_price & quantity & p & sentiment & opposite & spec
          & msg & side & _ & _ & _ & _ & _ & Hbranch & Hrun)].
  { left. exact Hself. }
  unfold after_iteration. rewrite Hrun.
  destruct (attempt_writes env this
              (sizing_trace env this ++ sentiment_trace env this)
              opposite spec msg side (lookups_quiet env this))
    as [(Hself & _) | (order & _ & _ & Hself & _)].
  - left. exact Hself.
  - right. rewrite Hself. destruct Hbranch; auto.
Qed.

Lemma run_iterations_step (env : Env) (envs : list Env) (w : World) :
  run_iterations (env :: envs) w =
  run_iterations envs
    {| self := self (after_iteration env (self w));
       trace := trace w ++ trace (after_iteration env (self w)) |}.
Proof.
  simpl. rewrite on_trading_iteration_frame.
  pose proof (on_trading_iteration_returns env (start (self w))) as Hr.
  rewrite Hr. reflexivity.
Qed.

(** X10.  Over any run of iterations the strategy keeps its symbol, its
    [cash_at_risk], its sleep time and its client; [last_trade] ends as it
    began or as ["buy"] or ["sell"], so once a trade is recorded it is never
    reset to none; and the events of earlier iterations stay in the trace,
    in front of the later ones. *)
Theorem run_keeps_strategy (envs : list Env) (w : World) :
  symbol (self (snd (run_iterations envs w))) = symbol (self w) /\
  cash_at_risk (self (snd (run_iterations envs w))) = cash_at_risk (self w) /\
  sleeptime (self (snd (run_iterations envs w))) = sleeptime (self w) /\
  api (self (snd (run_iterations envs w))) = api (self w) /\
  (last_trade (self (snd (run_iterations envs w))) = last_trade (self w) \/
   last_trade (self (snd (run_iterations envs w))) = Some "buy" \/
   last_trade (self (snd (run_iterations envs w))) = Some "sell") /\
  (last_trade (self w) <> None ->
   last_trade (self (snd (run_iterations envs w))) <> None) /\
  exists tr, trace (snd (run_iterations envs w)) = trace w ++ tr.
Proof.
  revert w. induction envs as [|env envs IH]; intros w.
  - simpl. repeat split; auto. exists []. now rewrite app_nil_r.
  - rewrite run_iterations_step.
    set (w1 := {| self := self (after_iteration env (self w));
                  trace := trace w ++ trace (after_iteration env (self w)) |}).
    destruct (IH w1) as (Hsym & Hrisk & Hsleep & Hapi & Hlast & Hset & tr & Htr).
    assert (Hstep : self w1 = self w \/
                    self w1 = with_last_trade (self w) (Some "buy") \/
                    self w1 = with_last_trade (self w) (Some "sell"))
      by apply self_after_iteration.
    assert (Hfields : symbol (self w1) = symbol (self w) /\
                      cash_at_risk (self w1) = cash_at_risk (self w) /\
                      sleeptime (self w1) = sleeptime (self w) /\
                      api (self w1) = api (self w))
      by (destruct Hstep as [-> | [-> | ->]]; repeat split).
    destruct Hfields as (Hsym1 & Hrisk1 & Hsleep1 & Hapi1).
    split; [congruence|]. split; [congruence|].
    split; [congruence|]. split; [congruence|].
    split; [|split].
    + destruct Hlast as [Hlast|[Hlast|Hlast]]; auto.
      rewrite Hlast. destruct Hstep as [-> | [-> | ->]]; auto.
    + intros Hsome. apply Hset.
      destruct Hstep as [-> | [-> | ->]]; [exact Hsome | discriminate
                                      | discriminate].
    + exists (trace (after_iteration env (self w)) ++ tr).
      rewrite Htr. unfold w1. simpl. now rewrite app_assoc.
Qed.

Lemma run_keeps_strategy_witness :
  last_trade
    (self (snd (run_iterations
                  [tick 10000 100 (Val (0.99, "positive"));
                   tick_no_news 10000 100]
                  (start spy_long)))) <> None.
Proof.
  apply (run_keeps_strategy
           [tick 10000 100 (Val (0.99, "positive")); tick_no_news 10000 100]
           (start spy_long)).
  discriminate.
Defined.

Lemma sizing_ignores_last_trade (env : Env) (this : MLTrader)
    (v : option string) :
  sizing_result env (with_last_trade this v) = sizing_result env this.
Proof.
  unfold sizing_result, position_sizing, start.
  unfold_calls; unfold_py; simpl.
  destruct (env_get_cash env) as [cash|e]; simpl; [|reflexivity].
  destruct (env_get_last_price env (symbol this)) as [price|e]; simpl;
    [|reflexivity].
  destruct (py_div (cash * cash_at_risk this) price) as [q|e]; reflexivity.
Qed.

Lemma sentiment_ignores_last_trade (env : Env) (this : MLTrader)
    (v : option string) :
  sentiment_result env (with_last_trade this v) = sentiment_result env this.
Proof.
  unfold sentiment_result, get_sentiment, get_dates, start.
  unfold_calls; unfold_py; simpl.
  destruct (env_get_datetime env) as [today|e]; simpl; [|reflexivity].
  destruct (sub_days today 3) as [prior|e]; simpl; [|reflexivity].
  destruct (env_get_news env _ _ _) as [items|e]; simpl; [|reflexivity].
  destruct (env_estimate_sentiment env _) as [[p l]|e]; reflexivity.
Qed.

(** X16.  Two iterations compose: after a buy that went through, a strong
    negative signal on the next tick liquidates the position first and then
    sells.  With no last trade or a last buy, a [("positive", p1 > 0.999)]
    tick followed by a [("negative", p2 > 0.999)] tick, both past the gates
    and with the broker calls returning, gives the broker calls and writes:
    buy order, submission, ["buy"]; liquidation, sell order, submission,
    ["sell"]. *)
Theorem buy_then_sell_liquidates_between (env1 env2 : Env) (this : MLTrader)
    (cash1 price1 quantity1 p1 cash2 price2 quantity2 p2 : Q)
    (order1 order2 : Order) :
  last_trade this = None \/ last_trade this = Some "buy" ->
  sizing_result env1 this = Val (cash1, price1, quantity1) ->
  0 < quantity1 -> price1 < cash1 ->
  sentiment_result env1 this = Val (p1, "positive") -> 0.999 < p1 ->
  env_create_order env1 (buy_order (symbol this) quantity1 price1)
    = Val order1 ->
  env_submit_order env1 order1 = Val tt ->
  sizing_result env2 this = Val (cash2, price2, quantity2) ->
  0 < quantity2 -> price2 < cash2 ->
  sentiment_result env2 this = Val (p2, "negative") -> 0.999 < p2 ->
  broker_accepts env2 (sell_order (symbol this) quantity2 price2) order2 ->
  fst (run_iterations [env1; env2] (start this)) = Val tt /\
  actions (trace (after_run [env1; env2] this)) =
    [Call_create_order (buy_order (symbol this) quantity1 price1);
     Call_submit_order order1;
     Assign_last_trade (Some "buy");
     Call_sell_all;
     Call_create_order (sell_order (symbol this) quantity2 price2);
     Call_submit_order order2;
     Assign_last_trade (Some "sell")] /\
  self (after_run [env1; env2] this) = with_last_trade this (Some "sell").
Proof.
  intros Hl Hs1 Hq1 Hc1 Hp1 Hh1 Hnew1 Hsub1 Hs2 Hq2 Hc2 Hp2 Hh2 Hbroker.
  destruct (stacking_run env1 this cash1 price1 quantity1 p1 "positive"
              "sell" (buy_order (symbol this) quantity1 price1)
              (Msg_buy_submitted quantity1 price1) "buy" order1)
    as (_ & Hacts1 & Hself1); auto.
  { constructor. }
  { apply (last_trade_is_other this "sell" "buy"); auto. }
  destruct (reversal_run env2 (with_last_trade this (Some "buy"))
              cash2 price2 quantity2 p2 "negative" "buy"
              (sell_order (symbol this) quantity2 price2)
              (Msg_sell_submitted quantity2 price2) "sell" order2)
    as (_ & Hacts2 & Hself2); auto.
  { now rewrite sizing_ignores_last_trade. }
  { now rewrite sentiment_ignores_last_trade. }
  { apply (sell_branch (with_last_trade this (Some "buy"))). }
  split; [apply run_iterations_returns|].
  unfold after_run. rewrite !run_iterations_step. simpl.
  rewrite Hself1, Hself2, actions_app, Hacts1, Hacts2.
  split; reflexivity.
Qed.

Lemma buy_then_sell_liquidates_between_witness :
  actions
    (trace (after_run [tick 10000 100 (Val (0.9995, "positive"));
                       tick 5000 100 (Val (0.9999, "negative"))] spy)) =
    [Call_create_order (buy_order "SPY" 50 100);
     Call_submit_order (OrderHandle 1);
     Assign_last_trade (Some "buy");
     Call_sell_all;
     Call_create_order (sell_order "SPY" 25 100);
     Call_submit_order (OrderHandle 1);
     Assign_last_trade (Some "sell")].
Proof.
  apply (buy_then_sell_liquidates_between
           (tick 10000 100 (Val (0.9995, "positive")))
           (tick 5000 100 (Val (0.9999, "negative"))) spy
           10000 100 50 0.9995 5000 100 25 0.9999
           (OrderHandle 1) (OrderHandle 1));
    try reflexivity.
  - left. reflexivity.
  - repeat split.
Defined.

(** Past both gates, a strong signal is one attempt on its branch. *)
Lemma iteration_attempts (env : Env) (this : MLTrader)
    (cash last_price quantity p : Q) (sentiment opposite : string)
    (spec : OrderSpec) (msg : message) (side : string) :
  sizing_result env this = Val (cash, last_price, quantity) ->
  0 < quantity ->
  last_price < cash ->
  sentiment_result env this = Val (p, sentiment) ->
  0.999 < p ->
  branch this quantity last_price sentiment opposite spec msg side ->
  on_trading_iteration env (start this) =
  attempt opposite spec msg side env
    {| self := this;
       trace := sizing_trace env this ++ sentiment_trace env this |}.
Proof.
  intros Hs Hq Hc Hp Hhigh Hbranch.
  rewrite (iteration_trades env this _ _ _ _ _ Hs Hq Hp).
  rewrite trade_cases. simpl.
  rewrite (proj2 (Qgtb_true cash last_price) Hc).
  destruct Hbranch.
  - now rewrite (proj2 (buy_signal_true p "positive") (conj eq_refl Hhigh)).
  - assert (Hb : buy_signal p "negative" = false) by reflexivity.
    rewrite Hb.
    now rewrite (proj2 (sell_signal_true p "negative") (conj eq_refl Hhigh)).
Qed.

(** X17.  A reversal that fails after its liquidation is retried whole: when
    [sell_all] returns but [create_order] raises, [last_trade] stays
    ["sell"], so the same strong positive signal on the next tick calls
    [sell_all] a second time before it builds and submits the buy order. *)
Theorem failed_reversal_liquidates_again (env1 env2 : Env) (this : MLTrader)
    (cash1 price1 quantity1 p1 cash2 price2 quantity2 p2 : Q)
    (e : exn) (order : Order) :
  last_trade this = Some "sell" ->
  sizing_result env1 this = Val (cash1, price1, quantity1) ->
  0 < quantity1 -> price1 < cash1 ->
  sentiment_result env1 this = Val (p1, "positive") -> 0.999 < p1 ->
  env_sell_all env1 = Val tt ->
  env_create_order env1 (buy_order (symbol this) quantity1 price1) = Exn e ->
  sizing_result env2 this = Val (cash2, price2, quantity2) ->
  0 < quantity2 -> price2 < cash2 ->
  sentiment_result env2 this = Val (p2, "positive") -> 0.999 < p2 ->
  broker_accepts env2 (buy_order (symbol this) quantity2 price2) order ->
  self (after_iteration env1 this) = this /\
  actions (trace (after_run [env1; env2] this)) =
    [Call_sell_all;
     Call_create_order (buy_order (symbol this) quantity1 price1);
     Call_sell_all;
     Call_create_order (buy_order (symbol this) quantity2 price2);
     Call_submit_order order;
     Assign_last_trade (Some "buy")] /\
  self (after_run [env1; env2] this) = with_last_trade this (Some "buy").
Proof.
  intros Hl Hs1 Hq1 Hc1 Hp1 Hh1 Hliq1 Hnew1 Hs2 Hq2 Hc2 Hp2 Hh2 Hbroker.
  pose proof (iteration_attempts env1 this cash1 price1 quantity1 p1
                "positive" "sell" _ _ "buy" Hs1 Hq1 Hc1 Hp1 Hh1
                (buy_branch this quantity1 price1)) as Hrun1.
  assert (Hsell : last_trade_is this "sell" = true)
    by now apply last_trade_is_true.
  assert (Hself1 : self (after_iteration env1 this) = this).
  { unfold after_iteration. rewrite Hrun1, attempt_run. simpl.
    rewrite Hsell, Hliq1, Hnew1. reflexivity. }
  assert (Hacts1 : actions (trace (after_iteration env1 this)) =
                   [Call_sell_all;
                    Call_create_order
                      (buy_order (symbol this) quantity1 price1)]).
  { unfold after_iteration. rewrite Hrun1.
    rewrite attempt_actions by apply lookups_quiet.
    unfold liquidation. rewrite Hsell, Hliq1, Hnew1. reflexivity. }
  destruct (reversal_run env2 this cash2 price2 quantity2 p2 "positive"
              "sell" (buy_order (symbol this) quantity2 price2)
              (Msg_buy_submitted quantity2 price2) "buy" order)
    as (_ & Hacts2 & Hself2); auto.
  { constructor. }
  split; [exact Hself1|].
  unfold after_run. rewrite !run_iterations_step. simpl.
  rewrite Hself1, Hself2, actions_app, Hacts1, Hacts2.
  split; reflexivity.
Qed.

Lemma failed_reversal_liquidates_again_witness :
  actions
    (trace (after_run
              [{| env_get_cash := Val 10000;
                  env_get_last_price := fun _ => Val 100;
                  env_get_datetime := Val (mkDatetime 738885 0);
                  env_get_news := fun _ _ _ => Val some_news;
                  env_estimate_sentiment :=
                    fun _ => Val (0.9995, "positive");
                  env_sell_all := Val tt;
                  env_create_order :=
                    fun _ => Exn (CollaboratorError "create_order");
                  env_submit_order := fun _ => Val tt |};
               tick 10000 100 (Val (0.9995, "positive"))]
              spy_short)) =
    [Call_sell_all;
     Call_create_order (buy_order "SPY" 50 100);
     Call_sell_all;
     Call_create_order (buy_order "SPY" 50 100);
     Call_submit_order (OrderHandle 1);
     Assign_last_trade (Some "buy")].
Proof.
  apply (failed_reversal_liquidates_again
           {| env_get_cash := Val 10000;
              env_get_last_price := fun _ => Val 100;
              env_get_datetime := Val (mkDatetime 738885 0);
              env_get_news := fun _ _ _ => Val some_news;
              env_estimate_sentiment := fun _ => Val (0.9995, "positive");
              env_sell_all := Val tt;
              env_create_order :=
                fun _ => Exn (CollaboratorError "create_order");
              env_submit_order := fun _ => Val tt |}
           (tick 10000 100 (Val (0.9995, "positive"))) spy_short
           10000 100 50 0.9995 10000 100 50 0.9995
           (CollaboratorError "create_order") (OrderHandle 1));
    try reflexivity.
  repeat split.
Defined.

(** ** Start-up examples *)

Example initialize_default :
  initialize (Val alpaca) "spy" 0.5 = (Val spy, [Call_REST]).
Proof. reflexivity. Qed.

Example initialize_rejects_zero :
  initialize (Val alpaca) "SPY" 0
  = (Exn (ValueError "cash_at_risk must be between 0 and 1."), []).
Proof. reflexivity. Qed.

Example backtest_window :
  strftime_ymd (datetime_of 2020 1 1) = "2020-01-01" /\
  strftime_ymd (datetime_of 2023 12 31) = "2023-12-31" /\
  ord2ymd (ymd2ord 2024 2 29) = (2024, 2, 29)%Z.
Proof. repeat split. Qed.

Example empty_key_is_rejected :
  load_module (fun name => if (name =? "API_KEY")%string then Some ""
                           else Some "x")
  = Exn (ValueError
           "API credentials or BASE_URL not set. Check your .env file.").
Proof. reflexivity. Qed.
